(** * ReActMCP tool servers: a shallow embedding and its properties

    The development embeds the two tool servers of the repository,
    [servers/exa_web_search.py] and [servers/fire_crawl.py], and proves
    properties of their request translation and report formatting.

    Python values are embedded as the inductive type [pyval]; a raised
    [Exception] is a value of [exn]; code that may raise lives in the
    error monad [result]; the Firecrawl tools, which read and write the
    module globals [api_key] and [firecrawl_app], live in a state and
    error monad [fc]. *)

From Stdlib Require Import ZArith String Ascii List Bool Lia.
From stdpp Require Import base gmap strings.

Import ListNotations.
Set Warnings "-register-all".
Local Open Scope string_scope.
Local Open Scope Z_scope.

(** ** Python values *)

Module Py.

(** The values the servers handle: JSON-like data returned by the
    clients, and objects with named attributes (the result objects of
    the Exa client).  An object carries the name of its class and the
    text [str()] gives for it.  Floating point numbers are left out. *)
Inductive pyval : Type :=
| VNone
| VBool (b : bool)
| VInt (z : Z)
| VStr (s : string)
| VList (l : list pyval)
| VDict (d : list (string * pyval))
| VObj (cls : string) (text : string) (attrs : list (string * pyval)).

(** A raised exception: the name of its class and [str(e)]. *)
Record exn : Type := Exn { exn_class : string; exn_msg : string }.

(** The classes of the standard library that are not subclasses of
    [Exception]; [except Exception] does not catch them. *)
Definition base_only_classes : list string :=
  ["BaseException"; "BaseExceptionGroup"; "GeneratorExit"; "KeyboardInterrupt";
   "SystemExit"; "CancelledError"].

(** [isinstance(e, Exception)] *)
Definition is_exception (e : exn) : bool :=
  negb (existsb (String.eqb (exn_class e)) base_only_classes).

Inductive result (A : Type) : Type :=
| Ok (a : A)
| Raise (e : exn).
Arguments Ok {A} a.
Arguments Raise {A} e.

#[global] Instance result_ret : MRet result := fun A a => Ok a.
#[global] Instance result_bind : MBind result := fun A B k m =>
  match m with
  | Ok a => k a
  | Raise e => Raise e
  end.

Definition nl : string := String (ascii_of_nat 10) EmptyString.
Definition squote : ascii := ascii_of_nat 39.
Definition dquote : ascii := ascii_of_nat 34.
Definition backslash : ascii := ascii_of_nat 92.

(** Lookup in an insertion-ordered dictionary or attribute table. *)
Fixpoint assoc {A : Type} (k : string) (d : list (string * A)) : option A :=
  match d with
  | [] => None
  | (k', v) :: d' => if String.eqb k k' then Some v else assoc k d'
  end.

(** [bool(v)] *)
Definition truthy (v : pyval) : bool :=
  match v with
  | VNone => false
  | VBool b => b
  | VInt z => negb (z =? 0)
  | VStr s => negb (String.eqb s "")
  | VList l => match l with [] => false | _ => true end
  | VDict d => match d with [] => false | _ => true end
  | VObj _ _ _ => true
  end.

(** [type(v).__name__] *)
Definition type_name (v : pyval) : string :=
  match v with
  | VNone => "NoneType"
  | VBool _ => "bool"
  | VInt _ => "int"
  | VStr _ => "str"
  | VList _ => "list"
  | VDict _ => "dict"
  | VObj cls _ _ => cls
  end.

(** Decimal digits of a natural number, most significant first. *)
Definition digit (n : Z) : ascii := ascii_of_nat (48 + Z.to_nat n).

Fixpoint digits_fuel (fuel : nat) (n : Z) (acc : string) : string :=
  match fuel with
  | O => acc
  | S fuel' =>
      let acc' := String (digit (n mod 10)) acc in
      if n / 10 =? 0 then acc' else digits_fuel fuel' (n / 10) acc'
  end.

(** [str(n)] for an integer.  CPython refuses to print an integer of
    more than 4300 digits; such integers are outside the model. *)
Definition str_int (n : Z) : string :=
  if n <? 0
  then String "-" (digits_fuel (S (Z.to_nat (Z.log2 (- n)))) (- n) "")
  else digits_fuel (S (Z.to_nat (Z.log2 n))) n "".

Definition hex_digit (n : nat) : ascii :=
  if (n <? 10)%nat then ascii_of_nat (48 + n) else ascii_of_nat (87 + n).

(** One character of [repr(s)], with [q] the quote in use.  Texts are
    sequences of bytes here: the bytes of a character outside ASCII are
    kept as they are, also where Python would escape a character that
    does not print. *)
Definition repr_char (q : ascii) (c : ascii) : string :=
  let n := nat_of_ascii c in
  if Ascii.eqb c backslash then String backslash (String backslash "")
  else if Ascii.eqb c q then String backslash (String q "")
  else if (n =? 10)%nat then String backslash "n"
  else if (n =? 13)%nat then String backslash "r"
  else if (n =? 9)%nat then String backslash "t"
  else if ((n <? 32) || (n =? 127))%nat
       then String backslash
              (String "x" (String (hex_digit (n / 16)) (String (hex_digit (n mod 16)) "")))
  else String c "".

Fixpoint has_char (c : ascii) (s : string) : bool :=
  match s with
  | EmptyString => false
  | String c' s' => Ascii.eqb c c' || has_char c s'
  end.

Fixpoint repr_chars (q : ascii) (s : string) : string :=
  match s with
  | EmptyString => ""
  | String c s' => repr_char q c +:+ repr_chars q s'
  end.

(** [repr(s)] for a string: single quotes, unless the text has a single
    quote and no double quote. *)
Definition repr_str (s : string) : string :=
  let q := if has_char squote s && negb (has_char dquote s) then dquote else squote in
  String q (repr_chars q s +:+ String q "").

Fixpoint join (sep : string) (l : list string) : string :=
  match l with
  | [] => ""
  | [x] => x
  | x :: l' => x +:+ sep +:+ join sep l'
  end.

(** [repr(v)] *)
Fixpoint repr (v : pyval) : string :=
  match v with
  | VNone => "None"
  | VBool b => if b then "True" else "False"
  | VInt z => str_int z
  | VStr s => repr_str s
  | VList l => "[" +:+ join ", " (List.map repr l) +:+ "]"
  | VDict d =>
      "{" +:+ join ", " (List.map (fun kv => repr_str (fst kv) +:+ ": " +:+ repr (snd kv)) d) +:+ "}"
  | VObj _ text _ => text
  end.

(** [str(v)], which is what an f-string field [{v}] interpolates. *)
Definition str (v : pyval) : string :=
  match v with
  | VStr s => s
  | _ => repr v
  end.

Definition AttributeError (v : pyval) (name : string) : exn :=
  Exn "AttributeError"
      (String squote (type_name v) +:+ String squote " object has no attribute "
         +:+ String squote name +:+ String squote "").

(** [v.get(key, default)]: the dictionary method. *)
Definition get (v : pyval) (key : string) (default : pyval) : result pyval :=
  match v with
  | VDict d => Ok (match assoc key d with Some x => x | None => default end)
  | _ => Raise (AttributeError v "get")
  end.

(** [hasattr(v, name)] and [v.name]. *)
Definition hasattr (v : pyval) (name : string) : bool :=
  match v with
  | VObj _ _ attrs => match assoc name attrs with Some _ => true | None => false end
  | _ => false
  end.

Definition getattr (v : pyval) (name : string) : result pyval :=
  match v with
  | VObj _ _ attrs =>
      match assoc name attrs with
      | Some x => Ok x
      | None => Raise (AttributeError v name)
      end
  | _ => Raise (AttributeError v name)
  end.

Fixpoint chars (s : string) : list pyval :=
  match s with
  | EmptyString => []
  | String c s' => VStr (String c "") :: chars s'
  end.

(** The items a [for] loop or [enumerate] draws from [v]. *)
Definition iter (v : pyval) : result (list pyval) :=
  match v with
  | VList l => Ok l
  | VDict d => Ok (List.map (fun kv => VStr (fst kv)) d)
  | VStr s => Ok (chars s)
  | _ => Raise (Exn "TypeError"
                  (String squote (type_name v) +:+ String squote " object is not iterable"))
  end.

(** [len(v)] *)
Definition len (v : pyval) : result Z :=
  match v with
  | VList l => Ok (Z.of_nat (List.length l))
  | VDict d => Ok (Z.of_nat (List.length d))
  | VStr s => Ok (Z.of_nat (String.length s))
  | _ => Raise (Exn "TypeError"
                  ("object of type " +:+ String squote (type_name v)
                     +:+ String squote " has no len()"))
  end.

(** [isinstance(v, list)] *)
Definition is_list (v : pyval) : bool :=
  match v with
  | VList _ => true
  | _ => false
  end.

End Py.

Export Py.

(** ** The [datetime] library

    What the search server uses of Python's [datetime]: a naive date and
    time with calendar fields, subtraction of a whole number of days, and
    [strftime].  Days are counted as proleptic Gregorian ordinals, day 1
    being 0001-01-01, as [date.toordinal] does. *)

Module Datetime.

Record datetime : Type := mkDatetime {
  year : Z; month : Z; day : Z;
  hour : Z; minute : Z; second : Z; microsecond : Z
}.

(** The ordinal of a calendar date; the year is counted from March so
    that the leap day comes last. *)
Definition ymd2ord (y m d : Z) : Z :=
  let y' := if m <=? 2 then y - 1 else y in
  let era := y' / 400 in
  let yoe := y' - era * 400 in
  let mp := if 2 <? m then m - 3 else m + 9 in
  let doy := (153 * mp + 2) / 5 + d - 1 in
  let doe := yoe * 365 + yoe / 4 - yoe / 100 + doy in
  era * 146097 + doe - 305.

(** Year of the 400-year era, counted from March, of a day of the era. *)
Definition yoe_of_doe (doe : Z) : Z :=
  (doe - doe / 1460 + doe / 36524 - doe / 146096) / 365.

Definition doy_of_doe (doe : Z) : Z :=
  let yoe := yoe_of_doe doe in
  doe - (365 * yoe + yoe / 4 - yoe / 100).

Definition mp_of_doy (doy : Z) : Z := (5 * doy + 2) / 153.

(** The calendar date of an ordinal. *)
Definition ord2ymd (n : Z) : Z * Z * Z :=
  let z := n + 305 in
  let era := z / 146097 in
  let doe := z - era * 146097 in
  let yoe := yoe_of_doe doe in
  let y := yoe + era * 400 in
  let doy := doy_of_doe doe in
  let mp := mp_of_doy doy in
  let d := doy - (153 * mp + 2) / 5 + 1 in
  let m := if mp <? 10 then mp + 3 else mp - 9 in
  (if m <=? 2 then y + 1 else y, m, d).

Definition toordinal (dt : datetime) : Z := ymd2ord (year dt) (month dt) (day dt).


Definition max_ordinal : Z := 3652059.
Definition max_delta_days : Z := 999999999.
Definition max_c_int : Z := 2147483647.




(** [dt - timedelta(days=n)].  [timedelta] takes the days as a C int
    and refuses more than 999999999 of them, and the difference must be
    a date of the years 1 to 9999. *)
Definition sub_days (dt : datetime) (n : Z) : result datetime :=
  if (n <? - max_c_int - 1) || (max_c_int <? n) then
    Raise (Exn "OverflowError" "Python int too large to convert to C int")
  else if (n <? - max_delta_days) || (max_delta_days <? n) then
    Raise (Exn "OverflowError"
             ("days=" +:+ str_int n +:+ "; must have magnitude <= 999999999"))
  else
    let o := toordinal dt - n in
    if (1 <=? o) && (o <=? max_ordinal) then
      let '(y, m, d) := ord2ymd o in
      Ok (mkDatetime y m d (hour dt) (minute dt) (second dt) (microsecond dt))
    else Raise (Exn "OverflowError" "date value out of range").

(** Two decimal digits, as [%m], [%d], [%H], [%M] and [%S] print. *)
Definition pad2 (n : Z) : string :=
  String (digit (n / 10)) (String (digit (n mod 10)) "").

(** [dt.strftime("%Y-%m-%dT%H:%M:%SZ")].  [%Y] prints the year in
    decimal; the padding of years below 1000 depends on the platform's C
    library and is not modelled, so the results below are stated for the
    years from 1000 on. *)
Definition strftime (dt : datetime) : string :=
  str_int (year dt) +:+ "-" +:+ pad2 (month dt) +:+ "-" +:+ pad2 (day dt) +:+ "T"
    +:+ pad2 (hour dt) +:+ ":" +:+ pad2 (minute dt) +:+ ":" +:+ pad2 (second dt) +:+ "Z".



End Datetime.

(** ** Control flow shared by the two servers *)

(** [try: body except Exception as e: handler(e)]: an exception that
    is not an instance of [Exception] is not caught. *)
Definition try_except {A : Type} (body : result A) (handler : exn -> result A) : result A :=
  match body with
  | Ok a => Ok a
  | Raise e => if is_exception e then handler e else Raise e
  end.

(** [for idx, x in enumerate(items, idx): acc = body(acc, idx, x)] *)
Fixpoint for_enumerate {A : Type} (body : A -> Z -> pyval -> result A)
    (items : list pyval) (idx : Z) (acc : A) : result A :=
  match items with
  | [] => Ok acc
  | x :: rest => acc' ← body acc idx x; for_enumerate body rest (idx + 1) acc'
  end.

(** [a or b] *)
Definition py_or (a b : pyval) : pyval := if truthy a then a else b.

Definition of_opt_int (o : option Z) : pyval :=
  match o with Some n => VInt n | None => VNone end.
Definition of_opt_str (o : option string) : pyval :=
  match o with Some s => VStr s | None => VNone end.
Definition of_strs (l : list string) : pyval := VList (List.map VStr l).
Definition of_opt_strs (o : option (list string)) : pyval :=
  match o with Some l => of_strs l | None => VNone end.

(** ** [servers/exa_web_search.py] *)

Module ExaWebSearch.

(** The Exa client handle built at import from [EXA_API_KEY]. *)
Record Exa : Type := mkExa { exa_api_key : string }.

(** The behaviour of the Exa client and service: what
    [search_and_contents] returns, or raises, for a query and keyword
    arguments, sent under the handle's key. *)
Record ExaService : Type := {
  exa_search_and_contents : string -> string -> gmap string pyval -> result pyval
}.

Definition search_and_contents (svc : ExaService) (exa : Exa)
    (query : string) (kwargs : gmap string pyval) : result pyval :=
  exa_search_and_contents svc (exa_api_key exa) query kwargs.

Record Config : Type := {
  default_num_results : Z;
  include_domains : list string
}.

Definition websearch_config : Config :=
  {| default_num_results := 5; include_domains := [] |}.

Definition summary_option : pyval :=
  VDict [("query", VStr "Main points and key takeaways")].

(** One turn of the loop of [format_search_results]. *)
Definition format_search_result (markdown_results : string) (idx : Z) (result : pyval)
    : Py.result string :=
  title ← (if hasattr result "title"
           then t ← getattr result "title";
                mret (if truthy t then t else VStr "No title")
           else mret (VStr "No title"));
  url ← getattr result "url";
  published_date ← (if hasattr result "published_date"
                    then p ← getattr result "published_date";
                         mret (if truthy p then " (Published: " +:+ str p +:+ ")" else "")
                    else mret "");
  let markdown_results :=
    markdown_results +:+ "**" +:+ str_int idx +:+ ".** [" +:+ str title +:+ "]("
      +:+ str url +:+ ")" +:+ published_date +:+ nl in
  has_summary ← (if hasattr result "summary"
                 then s ← getattr result "summary"; mret (truthy s)
                 else mret false);
  if has_summary : bool
  then s ← getattr result "summary";
       mret (markdown_results +:+ "> **Summary:** " +:+ str s +:+ nl +:+ nl)
  else mret (markdown_results +:+ nl).

Definition format_search_results (search_results : pyval) : Py.result string :=
  results ← getattr search_results "results";
  if negb (truthy results) then mret "No results found."
  else
    items ← iter results;
    for_enumerate format_search_result items 1 ("### Search Results:" +:+ nl +:+ nl).

(** The keyword arguments [search_web] builds (lines 42-44). *)
Definition search_web_args (num_results : option Z) : gmap string pyval :=
  {[ "num_results" :=
       py_or (of_opt_int num_results) (VInt (default_num_results websearch_config)) ]}.

Definition search_error (e : exn) : Py.result string :=
  mret ("An error occurred while searching with Exa: " +:+ exn_msg e).

(** The [try] block of [search_web]. *)
Definition search_web_body (svc : ExaService) (exa : Exa)
    (query : string) (num_results : option Z) : Py.result string :=
  let search_args := search_web_args num_results in
  search_results ←
    search_and_contents svc exa query (<["summary" := summary_option]> search_args);
  format_search_results search_results.

Definition search_web (svc : ExaService) (exa : Exa)
    (query : string) (num_results : option Z) : Py.result string :=
  try_except (search_web_body svc exa query num_results) search_error.

(** The keyword arguments [advanced_search_web] builds (lines 79-97);
    [now] is what [datetime.now()] reads when the max age filter is
    added. *)
Definition advanced_search_args (now : Datetime.datetime)
    (num_results : option Z) (include_domains : option (list string))
    (include_text : option string) (max_age_days : option Z)
    : Py.result (gmap string pyval) :=
  let search_args : gmap string pyval :=
    {[ "num_results" :=
         py_or (of_opt_int num_results) (VInt (default_num_results websearch_config)) ]} in
  let search_args :=
    if truthy (of_opt_strs include_domains)
    then <["include_domains" := of_opt_strs include_domains]> search_args
    else if truthy (of_strs (ExaWebSearch.include_domains websearch_config))
         then <["include_domains" := of_strs (ExaWebSearch.include_domains websearch_config)]>
                search_args
         else search_args in
  let search_args :=
    if truthy (of_opt_str include_text)
    then <["include_text" := VList [of_opt_str include_text]]> search_args
    else search_args in
  match max_age_days with
  | Some days =>
      if truthy (VInt days)
      then start ← Datetime.sub_days now days;
           let start_date := Datetime.strftime start in
           mret (<["start_published_date" := VStr start_date]> search_args)
      else mret search_args
  | None => mret search_args
  end.

(** The [try] block of [advanced_search_web]. *)
Definition advanced_search_web_body (svc : ExaService) (exa : Exa) (now : Datetime.datetime)
    (query : string) (num_results : option Z) (include_domains : option (list string))
    (include_text : option string) (max_age_days : option Z) : Py.result string :=
  search_args ←
    advanced_search_args now num_results include_domains include_text max_age_days;
  search_results ←
    search_and_contents svc exa query (<["summary" := summary_option]> search_args);
  format_search_results search_results.

Definition advanced_search_web (svc : ExaService) (exa : Exa) (now : Datetime.datetime)
    (query : string) (num_results : option Z) (include_domains : option (list string))
    (include_text : option string) (max_age_days : option Z) : Py.result string :=
  try_except
    (advanced_search_web_body svc exa now query num_results include_domains include_text
       max_age_days)
    search_error.

End ExaWebSearch.

(** ** [servers/fire_crawl.py] *)

Module FireCrawl.

(** The client handle [FirecrawlApp(api_key=...)]. *)
Record FirecrawlApp : Type := mkApp { app_api_key : string }.

(** The module globals [api_key] and [firecrawl_app]. *)
Record State : Type := mkState {
  api_key : option string;
  firecrawl_app : option FirecrawlApp
}.

(** Code that reads and writes the globals and may raise. *)
Definition fc (A : Type) : Type := State -> result A * State.

#[global] Instance fc_ret : MRet fc := fun A a st => (Ok a, st).
#[global] Instance fc_bind : MBind fc := fun A B k m st =>
  match m st with
  | (Ok a, st') => k a st'
  | (Raise e, st') => (Raise e, st')
  end.

Definition lift {A : Type} (r : result A) : fc A := fun st => (r, st).

(** [try: body except Exception as e: handler(e)]: an exception that
    is not an instance of [Exception] is not caught. *)
Definition fc_try_except {A : Type} (body : fc A) (handler : exn -> fc A) : fc A :=
  fun st =>
    match body st with
    | (Ok a, st') => (Ok a, st')
    | (Raise e, st') => if is_exception e then handler e st' else (Raise e, st')
    end.

(** The behaviour of the Firecrawl client and service: what each method
    returns, or raises, for a request sent under a key. *)
Record FirecrawlService : Type := {
  fc_scrape_url : string -> string -> pyval -> result pyval;
  fc_crawl_url : string -> string -> pyval -> result pyval;
  fc_check_crawl_status : string -> string -> result pyval;
  fc_map_url : string -> string -> pyval -> result pyval;
  fc_extract : string -> list string -> pyval -> result pyval
}.

Definition missing_key_message : string :=
  "FIRECRAWL_API_KEY environment variable not set. "
    +:+ "Please set this variable in a .env file or system environment.".

Definition get_firecrawl_app : fc FirecrawlApp := fun st =>
  match firecrawl_app st with
  | None =>
      match api_key st with
      | None => (Raise (Exn "ValueError" missing_key_message), st)
      | Some key =>
          let app := mkApp key in
          (Ok app, mkState (api_key st) (Some app))
      end
  | Some app => (Ok app, st)
  end.

(** [text += v]: only a string may be appended to a string. *)
Definition concat_str (text : string) (v : pyval) : result string :=
  match v with
  | VStr s => Ok (text +:+ s)
  | _ => Raise (Exn "TypeError"
                  ("can only concatenate str (not " +:+ String dquote (type_name v)
                     +:+ String dquote ") to str"))
  end.

Definition format_markdown_with_metadata (response : pyval) : result string :=
  success ← get response "success" VNone;
  if negb (truthy success)
  then error ← get response "error" (VStr "");
       mret ("Error: Failed to retrieve data. " +:+ str error)
  else
    data ← get response "data" (VDict []);
    markdown ← get data "markdown" (VStr "");
    metadata ← get data "metadata" (VDict []);
    title ← get metadata "title" (VStr "Scraped Content");
    let formatted_result := "# " +:+ str title +:+ nl +:+ nl in
    description ← get metadata "description" VNone;
    let formatted_result :=
      if truthy description
      then formatted_result +:+ "*" +:+ str description +:+ "*" +:+ nl +:+ nl
      else formatted_result in
    source ← get metadata "sourceURL" (VStr "Unknown");
    let formatted_result := formatted_result +:+ "**Source URL:** " +:+ str source +:+ nl +:+ nl in
    let formatted_result := formatted_result +:+ "---" +:+ nl +:+ nl in
    concat_str formatted_result markdown.

(** One turn of the loop over the crawled pages. *)
Definition format_crawled_page (formatted_status : string) (idx : Z) (page : pyval)
    : result string :=
  metadata ← get page "metadata" (VDict []);
  title ← get metadata "title" (VStr "Unknown Title");
  let formatted_status :=
    formatted_status +:+ str_int (idx + 1) +:+ ". **" +:+ str title +:+ "**" +:+ nl in
  source ← get metadata "sourceURL" (VStr "Unknown URL");
  mret (formatted_status +:+ "   URL: " +:+ str source +:+ nl).

Definition format_crawl_status (status : pyval) : result string :=
  if negb (truthy status) then mret "Error: Failed to retrieve crawl status."
  else
    let formatted_status := "# Crawl Status" +:+ nl +:+ nl in
    label ← get status "status" (VStr "Unknown");
    let formatted_status := formatted_status +:+ "**Current Status:** " +:+ str label +:+ nl in
    total ← get status "totalCount" (VInt 0);
    let formatted_status := formatted_status +:+ "**Total Pages:** " +:+ str total +:+ nl in
    credits ← get status "creditsUsed" (VInt 0);
    let formatted_status := formatted_status +:+ "**Credits Used:** " +:+ str credits +:+ nl in
    expires ← get status "expiresAt" VNone;
    let formatted_status :=
      if truthy expires
      then formatted_status +:+ "**Expires At:** " +:+ str expires +:+ nl
      else formatted_status in
    data ← get status "data" VNone;
    if truthy data && is_list data
    then
      n ← len data;
      let formatted_status :=
        formatted_status +:+ nl +:+ "## Crawled Pages: " +:+ str_int n +:+ nl +:+ nl in
      pages ← iter data;
      for_enumerate format_crawled_page pages 0 formatted_status
    else mret formatted_status.

(** One turn of the loop over the mapped links. *)
Definition format_mapped_link (formatted_result : string) (idx : Z) (link : pyval)
    : result string :=
  mret (formatted_result +:+ str_int (idx + 1) +:+ ". " +:+ str link +:+ nl).

Definition format_mapped_links (map_result : pyval) : result string :=
  success ← get map_result "success" VNone;
  if negb (truthy success)
  then error ← get map_result "error" (VStr "");
       mret ("Error: Failed to map the website. " +:+ str error)
  else
    links ← get map_result "links" (VList []);
    let formatted_result := "# Website Map Results" +:+ nl +:+ nl in
    n ← len links;
    let formatted_result := formatted_result +:+ "Found " +:+ str_int n +:+ " links:" +:+ nl +:+ nl in
    items ← iter links;
    for_enumerate format_mapped_link items 0 formatted_result.

Definition default_formats : list string := ["markdown"].

Definition or_default {A : Type} (arg : option A) (d : A) : A :=
  match arg with Some a => a | None => d end.

(** The [params] dictionaries handed to the client. *)
Definition scrape_params (formats : list string) : pyval :=
  VDict [("formats", of_strs formats)].

Definition crawl_params (limit max_depth : Z) (formats : list string) : pyval :=
  VDict [("limit", VInt limit);
         ("maxDepth", VInt max_depth);
         ("scrapeOptions", VDict [("formats", of_strs formats)])].

Definition map_params (include_subdomains : bool) : pyval :=
  VDict [("includeSubdomains", VBool include_subdomains)].

Definition extract_params (prompt : string) (schema : pyval) : pyval :=
  VDict [("prompt", VStr prompt); ("schema", schema)].

(** The [try] block of [scrape_url]. *)
Definition scrape_url_body (svc : FirecrawlService) (url : string)
    (formats : list string) : fc string :=
  app ← get_firecrawl_app;
  response ← lift (fc_scrape_url svc (app_api_key app) url (scrape_params formats));
  lift (format_markdown_with_metadata response).

Definition scrape_url (svc : FirecrawlService) (url : string)
    (formats : option (list string)) : fc string :=
  let formats := or_default formats default_formats in
  fc_try_except (scrape_url_body svc url formats)
    (fun e => mret ("An error occurred while scraping " +:+ url +:+ ": " +:+ exn_msg e)).

Definition crawl_started (job_id : pyval) : string :=
  "# Crawl Job Started" +:+ nl +:+ nl
    +:+ "**Job ID:** " +:+ str job_id +:+ nl +:+ nl
    +:+ "To check the status of this crawl, use the `check_crawl_status` tool with this Job ID.".

(** The [try] block of [crawl_website]. *)
Definition crawl_website_body (svc : FirecrawlService) (url : string)
    (limit max_depth : Z) (formats : list string) : fc string :=
  app ← get_firecrawl_app;
  crawl_result ← lift (fc_crawl_url svc (app_api_key app) url
                         (crawl_params limit max_depth formats));
  job_id ← lift (get crawl_result "jobId" VNone);
  if negb (truthy job_id)
  then error ← lift (get crawl_result "error" (VStr ""));
       mret ("Error: Failed to start crawl job. " +:+ str error)
  else mret (crawl_started job_id).

Definition crawl_website (svc : FirecrawlService) (url : string)
    (limit max_depth : option Z) (formats : option (list string)) : fc string :=
  let limit := or_default limit 10 in
  let max_depth := or_default max_depth 2 in
  let formats := or_default formats default_formats in
  fc_try_except (crawl_website_body svc url limit max_depth formats)
    (fun e => mret ("An error occurred while starting the crawl job for " +:+ url +:+ ": "
                      +:+ exn_msg e)).

(** The [try] block of [check_crawl_status]. *)
Definition check_crawl_status_body (svc : FirecrawlService) (job_id : string) : fc string :=
  app ← get_firecrawl_app;
  status ← lift (fc_check_crawl_status svc (app_api_key app) job_id);
  lift (format_crawl_status status).

Definition check_crawl_status (svc : FirecrawlService) (job_id : string) : fc string :=
  fc_try_except (check_crawl_status_body svc job_id)
    (fun e => mret ("An error occurred while checking the crawl status for job " +:+ job_id
                      +:+ ": " +:+ exn_msg e)).

(** The [try] block of [map_website]. *)
Definition map_website_body (svc : FirecrawlService) (url : string)
    (include_subdomains : bool) : fc string :=
  app ← get_firecrawl_app;
  map_result ← lift (fc_map_url svc (app_api_key app) url (map_params include_subdomains));
  lift (format_mapped_links map_result).

Definition map_website (svc : FirecrawlService) (url : string)
    (include_subdomains : option bool) : fc string :=
  let include_subdomains := or_default include_subdomains true in
  fc_try_except (map_website_body svc url include_subdomains)
    (fun e => mret ("An error occurred while mapping the website " +:+ url +:+ ": "
                      +:+ exn_msg e)).

Section Extract.

(** [json.dumps(v, indent=2)] of the standard library: it returns the
    text or raises (on a value with no JSON form). *)
Variable json_dumps : pyval -> result string.

(** The [try] block of [extract_structured_data]. *)
Definition extract_structured_data_body (svc : FirecrawlService) (urls : list string)
    (prompt : string) (schema : pyval) : fc string :=
  app ← get_firecrawl_app;
  data ← lift (fc_extract svc (app_api_key app) urls (extract_params prompt schema));
  success ← lift (get data "success" VNone);
  if negb (truthy success)
  then error ← lift (get data "error" (VStr ""));
       mret ("Error: Failed to extract structured data. " +:+ str error)
  else
    let formatted_result := "# Extracted Structured Data" +:+ nl +:+ nl in
    payload ← lift (get data "data" (VDict []));
    text ← lift (json_dumps payload);
    mret (formatted_result +:+ "```json" +:+ nl +:+ text +:+ nl +:+ "```").

Definition extract_structured_data (svc : FirecrawlService) (urls : list string)
    (prompt : string) (schema : pyval) : fc string :=
  fc_try_except (extract_structured_data_body svc urls prompt schema)
    (fun e => mret ("An error occurred while extracting structured data: " +:+ exn_msg e)).

End Extract.

End FireCrawl.

(** ** The tool surface

    The seven operations registered with [@mcp.tool()], as one type of
    calls, run in a world that fixes the behaviour of the two clients,
    of [json.dumps] and of the clock. *)

Module Gateway.

Import ExaWebSearch FireCrawl.

Inductive call : Type :=
| SearchWeb (query : string) (num_results : option Z)
| AdvancedSearchWeb (query : string) (num_results : option Z)
    (include_domains : option (list string)) (include_text : option string)
    (max_age_days : option Z)
| ScrapeUrl (url : string) (formats : option (list string))
| CrawlWebsite (url : string) (limit max_depth : option Z) (formats : option (list string))
| CheckCrawlStatus (job_id : string)
| MapWebsite (url : string) (include_subdomains : option bool)
| ExtractStructuredData (urls : list string) (prompt : string) (schema : pyval).

Record World : Type := {
  exa_service : ExaService;
  firecrawl_service : FirecrawlService;
  json_dumps : pyval -> result string;
  clock : Datetime.datetime
}.

(** What varies from call to call: the Exa handle and the Firecrawl
    globals. *)
Record Process : Type := mkProcess {
  exa : Exa;
  firecrawl : State
}.

(** A tool call: its report, or the exception leaving it, and the
    process after it. *)
Definition invoke (w : World) (c : call) (p : Process) : result string * Process :=
  match c with
  | SearchWeb query num_results =>
      (search_web (exa_service w) (exa p) query num_results, p)
  | AdvancedSearchWeb query num_results include_domains include_text max_age_days =>
      (advanced_search_web (exa_service w) (exa p) (clock w) query num_results
         include_domains include_text max_age_days, p)
  | ScrapeUrl url formats =>
      let '(r, st) := scrape_url (firecrawl_service w) url formats (firecrawl p) in
      (r, mkProcess (exa p) st)
  | CrawlWebsite url limit max_depth formats =>
      let '(r, st) :=
        crawl_website (firecrawl_service w) url limit max_depth formats (firecrawl p) in
      (r, mkProcess (exa p) st)
  | CheckCrawlStatus job_id =>
      let '(r, st) := check_crawl_status (firecrawl_service w) job_id (firecrawl p) in
      (r, mkProcess (exa p) st)
  | MapWebsite url include_subdomains =>
      let '(r, st) := map_website (firecrawl_service w) url include_subdomains (firecrawl p) in
      (r, mkProcess (exa p) st)
  | ExtractStructuredData urls prompt schema =>
      let '(r, st) :=
        extract_structured_data (json_dumps w) (firecrawl_service w) urls prompt schema
          (firecrawl p) in
      (r, mkProcess (exa p) st)
  end.

(** The outcome of the [try] block of a call. *)
Definition body (w : World) (c : call) (p : Process) : result string :=
  match c with
  | SearchWeb query num_results =>
      search_web_body (exa_service w) (exa p) query num_results
  | AdvancedSearchWeb query num_results include_domains include_text max_age_days =>
      advanced_search_web_body (exa_service w) (exa p) (clock w) query num_results
        include_domains include_text max_age_days
  | ScrapeUrl url formats =>
      fst (scrape_url_body (firecrawl_service w) url (or_default formats default_formats)
             (firecrawl p))
  | CrawlWebsite url limit max_depth formats =>
      fst (crawl_website_body (firecrawl_service w) url (or_default limit 10)
             (or_default max_depth 2) (or_default formats default_formats) (firecrawl p))
  | CheckCrawlStatus job_id =>
      fst (check_crawl_status_body (firecrawl_service w) job_id (firecrawl p))
  | MapWebsite url include_subdomains =>
      fst (map_website_body (firecrawl_service w) url (or_default include_subdomains true)
             (firecrawl p))
  | ExtractStructuredData urls prompt schema =>
      fst (extract_structured_data_body (json_dumps w) (firecrawl_service w) urls prompt
             schema (firecrawl p))
  end.

(** The sentence each operation puts before the message of an
    exception. *)
Definition error_sentence (c : call) : string :=
  match c with
  | SearchWeb _ _ | AdvancedSearchWeb _ _ _ _ _ =>
      "An error occurred while searching with Exa: "
  | ScrapeUrl url _ => "An error occurred while scraping " +:+ url +:+ ": "
  | CrawlWebsite url _ _ _ =>
      "An error occurred while starting the crawl job for " +:+ url +:+ ": "
  | CheckCrawlStatus job_id =>
      "An error occurred while checking the crawl status for job " +:+ job_id +:+ ": "
  | MapWebsite url _ => "An error occurred while mapping the website " +:+ url +:+ ": "
  | ExtractStructuredData _ _ _ => "An error occurred while extracting structured data: "
  end.

(** The client behind a call raises [e] whatever the request. *)
Definition client_raises (w : World) (c : call) (e : exn) : Prop :=
  match c with
  | SearchWeb _ _ | AdvancedSearchWeb _ _ _ _ _ =>
      forall key query kwargs, exa_search_and_contents (exa_service w) key query kwargs = Raise e
  | ScrapeUrl _ _ =>
      forall key url params, fc_scrape_url (firecrawl_service w) key url params = Raise e
  | CrawlWebsite _ _ _ _ =>
      forall key url params, fc_crawl_url (firecrawl_service w) key url params = Raise e
  | CheckCrawlStatus _ =>
      forall key job_id, fc_check_crawl_status (firecrawl_service w) key job_id = Raise e
  | MapWebsite _ _ =>
      forall key url params, fc_map_url (firecrawl_service w) key url params = Raise e
  | ExtractStructuredData _ _ _ =>
      forall key urls params, fc_extract (firecrawl_service w) key urls params = Raise e
  end.

(** The call gets as far as calling its client: the request is built
    and, for the crawl server, the client handle is at hand. *)
Definition client_reached (w : World) (c : call) (p : Process) : Prop :=
  match c with
  | SearchWeb _ _ => True
  | AdvancedSearchWeb _ num_results include_domains include_text max_age_days =>
      exists args,
        advanced_search_args (clock w) num_results include_domains include_text
          max_age_days = Ok args
  | _ => exists app st, get_firecrawl_app (firecrawl p) = (Ok app, st)
  end.

(** Whatever the clients and [json.dumps] raise is an instance of
    [Exception]. *)
Definition raises_exceptions_only (w : World) : Prop :=
  (forall key query kwargs e,
      exa_search_and_contents (exa_service w) key query kwargs = Raise e ->
      is_exception e = true) /\
  (forall key url params e,
      fc_scrape_url (firecrawl_service w) key url params = Raise e ->
      is_exception e = true) /\
  (forall key url params e,
      fc_crawl_url (firecrawl_service w) key url params = Raise e ->
      is_exception e = true) /\
  (forall key job_id e,
      fc_check_crawl_status (firecrawl_service w) key job_id = Raise e ->
      is_exception e = true) /\
  (forall key url params e,
      fc_map_url (firecrawl_service w) key url params = Raise e ->
      is_exception e = true) /\
  (forall key urls params e,
      fc_extract (firecrawl_service w) key urls params = Raise e ->
      is_exception e = true) /\
  (forall v e, json_dumps w v = Raise e -> is_exception e = true).

(** The two clients answer every request alike under the keys [k1] and
    [k2]. *)
Definition same_responses (w : World) (k1 k2 : string) : Prop :=
  (forall query kwargs,
      exa_search_and_contents (exa_service w) k1 query kwargs
      = exa_search_and_contents (exa_service w) k2 query kwargs) /\
  (forall url params,
      fc_scrape_url (firecrawl_service w) k1 url params
      = fc_scrape_url (firecrawl_service w) k2 url params) /\
  (forall url params,
      fc_crawl_url (firecrawl_service w) k1 url params
      = fc_crawl_url (firecrawl_service w) k2 url params) /\
  (forall job_id,
      fc_check_crawl_status (firecrawl_service w) k1 job_id
      = fc_check_crawl_status (firecrawl_service w) k2 job_id) /\
  (forall url params,
      fc_map_url (firecrawl_service w) k1 url params
      = fc_map_url (firecrawl_service w) k2 url params) /\
  (forall urls params,
      fc_extract (firecrawl_service w) k1 urls params
      = fc_extract (firecrawl_service w) k2 urls params).

(** A process whose credential is [key]; [started] tells whether the
    Firecrawl client has been built already. *)
Definition process_with_key (key : string) (started : bool) : Process :=
  mkProcess (mkExa key)
    (mkState (Some key) (if started then Some (mkApp key) else None)).

End Gateway.

(** ** Shapes of reports and requests, for the statements below *)

Module Shape.

(** The attribute [name] of [r], when [r] is an object that has it. *)
Definition attr (r : pyval) (name : string) : option pyval :=
  match r with
  | VObj _ _ attrs => assoc name attrs
  | _ => None
  end.

(** An optional field counts as present when it is there and not empty. *)
Definition field (r : pyval) (name : string) : option pyval :=
  match attr r name with
  | Some v => if truthy v then Some v else None
  | None => None
  end.

Definition entry_title (r : pyval) : string :=
  match field r "title" with Some t => str t | None => "No title" end.

Definition entry_url (r : pyval) : string :=
  match attr r "url" with Some u => str u | None => "" end.

Definition entry_published (r : pyval) : string :=
  match field r "published_date" with
  | Some p => " (Published: " +:+ str p +:+ ")"
  | None => ""
  end.

(** The numbered line of a search entry. *)
Definition entry_heading (idx : Z) (r : pyval) : string :=
  "**" +:+ str_int idx +:+ ".** [" +:+ entry_title r +:+ "](" +:+ entry_url r +:+ ")"
    +:+ entry_published r +:+ nl.

(** A search entry: its numbered line, then its summary block or a
    blank line. *)
Definition entry_block (idx : Z) (r : pyval) : string :=
  entry_heading idx r
    +:+ match field r "summary" with
        | Some s => "> **Summary:** " +:+ str s +:+ nl +:+ nl
        | None => nl
        end.

(** A line of the list of mapped links. *)
Definition link_line (idx : Z) (link : pyval) : string :=
  str_int idx +:+ ". " +:+ str link +:+ nl.

(** The blocks of the items of a list, numbered from [idx] on. *)
Fixpoint enumerated (block : Z -> pyval -> string) (idx : Z) (items : list pyval)
    : list string :=
  match items with
  | [] => []
  | x :: rest => block idx x :: enumerated block (idx + 1) rest
  end.

(** The blocks one after the other. *)
Definition joined (blocks : list string) : string := fold_right String.append "" blocks.

Definition search_heading : string := "### Search Results:" +:+ nl +:+ nl.

Definition map_heading (n : Z) : string :=
  "# Website Map Results" +:+ nl +:+ nl +:+ "Found " +:+ str_int n +:+ " links:" +:+ nl +:+ nl.

(** [needle] occurs in [text]. *)
Fixpoint contains (needle text : string) : bool :=
  String.prefix needle text
  || match text with
     | EmptyString => false
     | String _ text' => contains needle text'
     end.


(** A search tool, as a function of the behaviour of the client, hands
    [request] to the client for [query] under the key of the handle:
    whatever the client does, the tool returns what its [try] block
    makes of the client's answer to that request. *)
Definition search_sends (tool : ExaWebSearch.ExaService -> result string)
    (exa : ExaWebSearch.Exa) (query : string) (request : gmap string pyval) : Prop :=
  forall svc : ExaWebSearch.ExaService,
    tool svc
    = try_except
        (search_results ←
           ExaWebSearch.exa_search_and_contents svc (ExaWebSearch.exa_api_key exa) query
             request;
         ExaWebSearch.format_search_results search_results)
        ExaWebSearch.search_error.

(** The max age, when there is one that is not zero, gives a date that
    [datetime] can hold. *)
Definition max_age_resolves (now : Datetime.datetime) (max_age_days : option Z) : Prop :=
  match max_age_days with
  | Some days => days = 0 \/ exists start, Datetime.sub_days now days = Ok start
  | None => True
  end.

(** Code that raises nothing but instances of [Exception]. *)
Definition safe {A : Type} (r : result A) : Prop :=
  forall e, r = Raise e -> is_exception e = true.

End Shape.

(** ** Sample inputs, for the instances below *)

Module Sample.

Import ExaWebSearch FireCrawl Gateway.

Definition now : Datetime.datetime := Datetime.mkDatetime 2025 3 5 7 8 9 250000.

(** A response of two entries: one with every optional field, one with
    none. *)
Definition two_results : pyval :=
  VObj "SearchResponse" "SearchResponse(...)"
    [("results",
      VList [VObj "Result" "Result(...)"
               [("title", VStr "First"); ("url", VStr "https://a.example");
                ("published_date", VStr "2025-01-01"); ("summary", VStr "Points")];
             VObj "Result" "Result(...)"
               [("title", VNone); ("url", VStr "https://b.example");
                ("published_date", VNone); ("summary", VNone)]])].

Definition no_results : pyval :=
  VObj "SearchResponse" "SearchResponse(...)" [("results", VList [])].

(** A crawl response without a [jobId] key, an empty status snapshot
    and a map of two links; the scrape fails with a message that quotes
    the key it was sent. *)
Definition crawl_failure : list (string * pyval) :=
  [("success", VBool false); ("error", VStr "Insufficient credits")].

Definition two_links : pyval :=
  VDict [("success", VBool true);
         ("links", VList [VStr "https://example.com/"; VStr "https://example.com/about"])].

Definition no_links : pyval := VDict [("success", VBool true); ("links", VList [])].

Definition service : FirecrawlService := {|
  fc_scrape_url := fun _ _ _ =>
    Raise (Exn "HTTPError" "Unauthorized: Invalid token sk-live-1");
  fc_crawl_url := fun _ _ _ => Ok (VDict crawl_failure);
  fc_check_crawl_status := fun _ _ => Ok (VDict []);
  fc_map_url := fun _ _ _ => Ok two_links;
  fc_extract := fun _ _ _ => Ok (VDict [("success", VBool true); ("data", VDict [])])
|}.

Definition key : string := "sk-live-1".
Definition other_key : string := "sk-live-2".

Definition world : World := {|
  exa_service := {| exa_search_and_contents := fun _ _ _ => Ok two_results |};
  firecrawl_service := service;
  json_dumps := fun _ => Ok "{}";
  clock := now
|}.

Definition state : State := mkState (Some key) None.
Definition started : State := mkState (Some key) (Some (mkApp key)).

End Sample.

(** ** More shapes, for the further properties *)

Module Layout.

Import ExaWebSearch FireCrawl Gateway Shape.

(** The entry of a dictionary, or a default. *)
Definition entry_or (d : list (string * pyval)) (key : string) (default : pyval) : pyval :=
  match assoc key d with Some v => v | None => default end.

(** The status block of a crawl status snapshot. *)
Definition status_block (d : list (string * pyval)) : string :=
  "# Crawl Status" +:+ nl +:+ nl
    +:+ "**Current Status:** " +:+ str (entry_or d "status" (VStr "Unknown")) +:+ nl
    +:+ "**Total Pages:** " +:+ str (entry_or d "totalCount" (VInt 0)) +:+ nl
    +:+ "**Credits Used:** " +:+ str (entry_or d "creditsUsed" (VInt 0)) +:+ nl
    +:+ (if truthy (entry_or d "expiresAt" VNone)
         then "**Expires At:** " +:+ str (entry_or d "expiresAt" VNone) +:+ nl
         else "").

(** The metadata of a crawled page, when the page is a dictionary whose
    [metadata] entry is absent or a dictionary. *)
Definition page_metadata (page : pyval) : option (list (string * pyval)) :=
  match page with
  | VDict p =>
      match entry_or p "metadata" (VDict []) with
      | VDict md => Some md
      | _ => None
      end
  | _ => None
  end.

(** The two lines of a crawled page. *)
Definition page_block (idx : Z) (page : pyval) : string :=
  let md := match page_metadata page with Some md => md | None => [] end in
  str_int idx +:+ ". **" +:+ str (entry_or md "title" (VStr "Unknown Title")) +:+ "**" +:+ nl
    +:+ "   URL: " +:+ str (entry_or md "sourceURL" (VStr "Unknown URL")) +:+ nl.

(** What a scrape report puts before the markdown body. *)
Definition scrape_heading (md : list (string * pyval)) : string :=
  "# " +:+ str (entry_or md "title" (VStr "Scraped Content")) +:+ nl +:+ nl
    +:+ (if truthy (entry_or md "description" VNone)
         then "*" +:+ str (entry_or md "description" VNone) +:+ "*" +:+ nl +:+ nl
         else "")
    +:+ "**Source URL:** " +:+ str (entry_or md "sourceURL" (VStr "Unknown")) +:+ nl +:+ nl
    +:+ "---" +:+ nl +:+ nl.

(** The calls served by the crawl server. *)
Definition is_crawl_call (c : call) : bool :=
  match c with
  | SearchWeb _ _ | AdvancedSearchWeb _ _ _ _ _ => false
  | _ => true
  end.

(** The line a call puts before the provider's error text when the
    response has no true [success] flag. *)
Definition failure_line (c : call) : option string :=
  match c with
  | ScrapeUrl _ _ => Some "Error: Failed to retrieve data. "
  | MapWebsite _ _ => Some "Error: Failed to map the website. "
  | ExtractStructuredData _ _ _ => Some "Error: Failed to extract structured data. "
  | _ => None
  end.

(** The client behind a call answers [response] whatever the request. *)
Definition client_answers (w : World) (c : call) (response : pyval) : Prop :=
  match c with
  | SearchWeb _ _ | AdvancedSearchWeb _ _ _ _ _ =>
      forall key query kwargs,
        exa_search_and_contents (exa_service w) key query kwargs = Ok response
  | ScrapeUrl _ _ =>
      forall key url params, fc_scrape_url (firecrawl_service w) key url params = Ok response
  | CrawlWebsite _ _ _ _ =>
      forall key url params, fc_crawl_url (firecrawl_service w) key url params = Ok response
  | CheckCrawlStatus _ =>
      forall key job_id, fc_check_crawl_status (firecrawl_service w) key job_id = Ok response
  | MapWebsite _ _ =>
      forall key url params, fc_map_url (firecrawl_service w) key url params = Ok response
  | ExtractStructuredData _ _ _ =>
      forall key urls params, fc_extract (firecrawl_service w) key urls params = Ok response
  end.

(** A world whose crawl service gives one answer to every request. *)
Definition world_of (answer : result pyval) (dumps : pyval -> result string) : World := {|
  exa_service := {| exa_search_and_contents := fun _ _ _ => answer |};
  firecrawl_service := {|
    fc_scrape_url := fun _ _ _ => answer;
    fc_crawl_url := fun _ _ _ => answer;
    fc_check_crawl_status := fun _ _ => answer;
    fc_map_url := fun _ _ _ => answer;
    fc_extract := fun _ _ _ => answer
  |};
  json_dumps := dumps;
  clock := Sample.now
|}.

(** Further sample inputs. *)
Definition status_with_pages : list (string * pyval) :=
  [("status", VStr "completed"); ("totalCount", VInt 2);
   ("data", VList [VDict [("metadata", VDict [("title", VStr "Home");
                                                ("sourceURL", VStr "https://example.com/")])];
                   VDict [("markdown", VStr "text")]])].

Definition status_scraping : list (string * pyval) :=
  [("status", VStr "scraping"); ("expiresAt", VStr "2025-03-06T00:00:00Z");
   ("data", VList [])].

Definition scrape_ok : pyval :=
  VDict [("success", VBool true);
         ("data", VDict [("markdown", VStr "Hello");
                         ("metadata", VDict [("title", VStr "Example")])])].

Definition scrape_null_body : pyval :=
  VDict [("success", VBool true); ("data", VDict [("markdown", VNone)])].

Definition failure : pyval := VDict [("success", VBool false); ("error", VStr "Rate limited")].

Definition extract_ok : pyval :=
  VDict [("success", VBool true); ("data", VDict [("name", VStr "Example")])].

(** [json.dumps({'name': 'Example'}, indent=2)] *)
Definition extract_json : string :=
  "{" +:+ nl +:+ "  " +:+ String dquote "name" +:+ String dquote ": "
    +:+ String dquote "Example" +:+ String dquote nl +:+ "}".

Definition result_without_url : pyval :=
  VObj "Result" "Result(...)" [("title", VStr "Second")].

Definition result_with_url : pyval :=
  VObj "Result" "Result(...)" [("title", VStr "First"); ("url", VStr "https://a.example")].

End Layout.

(** * Properties *)

Import Shape ExaWebSearch FireCrawl.

(** Case analysis on the conditions of the goal. *)
Ltac case_if H :=
  match goal with
  | |- context [if ?b then _ else _] => destruct b eqn:H
  end.



(** ** Strings *)

Lemma append_cons (ch : ascii) (a b : string) : String ch a +:+ b = String ch (a +:+ b).
Proof. reflexivity. Qed.

Lemma append_nil (b : string) : "" +:+ b = b.
Proof. reflexivity. Qed.

Lemma append_assoc (a b c : string) : (a +:+ b) +:+ c = a +:+ (b +:+ c).
Proof.
  induction a as [|ch a IH]; [reflexivity|].
  rewrite !append_cons. now rewrite IH.
Qed.

Lemma append_empty_r (a : string) : a +:+ "" = a.
Proof.
  induction a as [|ch a IH]; [reflexivity|].
  rewrite append_cons. now rewrite IH.
Qed.

Lemma prefix_append (a b : string) : String.prefix a (a +:+ b) = true.
Proof.
  induction a as [|ch a IH].
  - now destruct b.
  - rewrite append_cons. simpl.
    destruct (ascii_dec ch ch) as [_|Hne]; [exact IH | now destruct Hne].
Qed.

(** ** The calendar *)

Section Calendar.

Import Datetime.










End Calendar.

(** ** The search server *)

Section Search.

Import ExaWebSearch.

(** C7: a search response whose result sequence is empty is reported
    as the fixed text "No results found.", and as nothing else. *)
Theorem empty_results_report (search_results : pyval) :
  getattr search_results "results" = Ok (VList []) ->
  format_search_results search_results = Ok "No results found.".
Proof.
  intros Hres. unfold format_search_results. rewrite Hres. reflexivity.
Qed.

Lemma empty_results_report_witness :
  format_search_results Sample.no_results
  = Ok "No results found.".
Proof. apply empty_results_report. reflexivity. Defined.

(** With [max_age_days = 0] the request is the one built without a
    max age, and has no [start_published_date]. *)
Lemma zero_max_age_args (now : Datetime.datetime) (num_results : option Z)
    (include_domains : option (list string)) (include_text : option string) :
  exists args,
    advanced_search_args now num_results include_domains include_text (Some 0) = Ok args
    /\ advanced_search_args now num_results include_domains include_text None = Ok args
    /\ args !! "start_published_date" = None.
Proof.
  unfold advanced_search_args. simpl truthy at 4.
  eexists. split; [reflexivity|]. split; [reflexivity|].
  destruct (truthy (of_opt_strs include_domains)),
           (truthy (of_strs (ExaWebSearch.include_domains websearch_config))),
           (truthy (of_opt_str include_text));
    rewrite ?lookup_insert_ne by done; reflexivity.
Qed.

(** C9: with [max_age_days = 0] the translated request is built, it is
    the request built without a max age, and it carries no
    [start_published_date]. *)
Theorem zero_max_age_is_absent (now : Datetime.datetime) (num_results : option Z)
    (include_domains : option (list string)) (include_text : option string) :
  exists args,
    advanced_search_args now num_results include_domains include_text (Some 0) = Ok args
    /\ advanced_search_args now num_results include_domains include_text None = Ok args
    /\ args !! "start_published_date" = None.
Proof. apply zero_max_age_args. Qed.

(** The result count of every request [advanced_search_web] builds. *)
Lemma advanced_search_args_num_results (now : Datetime.datetime) (num_results : option Z)
    (include_domains : option (list string)) (include_text : option string)
    (max_age_days : option Z) (args : gmap string pyval) :
  advanced_search_args now num_results include_domains include_text max_age_days = Ok args ->
  args !! "num_results"
  = Some (py_or (of_opt_int num_results) (VInt (default_num_results websearch_config))).
Proof.
  unfold advanced_search_args.
  destruct (truthy (of_opt_strs include_domains)),
           (truthy (of_strs (ExaWebSearch.include_domains websearch_config))),
           (truthy (of_opt_str include_text)),
           max_age_days as [days|];
    try destruct (truthy (VInt days));
    try destruct (Datetime.sub_days now days);
    intros [= <-]; rewrite ?lookup_insert_ne by done; apply lookup_singleton_eq.
Qed.


(** What the two search tools hand to the client. *)
Lemma search_web_sends (exa : Exa) (query : string) (num_results : option Z) :
  search_sends (fun svc => search_web svc exa query num_results) exa query
    (<["summary" := summary_option]> (search_web_args num_results)).
Proof. intros svc. reflexivity. Qed.

Lemma advanced_search_web_sends (exa : Exa) (now : Datetime.datetime) (query : string)
    (num_results : option Z) (include_domains : option (list string))
    (include_text : option string) (max_age_days : option Z) (args : gmap string pyval) :
  advanced_search_args now num_results include_domains include_text max_age_days = Ok args ->
  search_sends
    (fun svc =>
       advanced_search_web svc exa now query num_results include_domains include_text
         max_age_days)
    exa query (<["summary" := summary_option]> args).
Proof.
  intros Hargs svc. unfold advanced_search_web, advanced_search_web_body.
  now rewrite Hargs.
Qed.


(** The request is built when the max age resolves. *)
Lemma advanced_search_args_built (now : Datetime.datetime) (num_results : option Z)
    (include_domains : option (list string)) (include_text : option string)
    (max_age_days : option Z) :
  max_age_resolves now max_age_days ->
  exists args,
    advanced_search_args now num_results include_domains include_text max_age_days = Ok args.
Proof.
  unfold max_age_resolves, advanced_search_args.
  destruct max_age_days as [days|]; [|eauto].
  intros [-> | [start Hstart]]; [simpl; eauto|].
  rewrite Hstart. destruct (truthy (VInt days)); simpl; eauto.
Qed.

(** C4: a result count the caller supplies (the data model has
    [result_count >= 1]) is the [num_results] of the request that
    [search_web] and [advanced_search_web] hand to the client, whatever
    the configured default; when the caller omits it, [num_results] is
    the configured default, 5. *)
Theorem result_count_resolution (n : Z) (exa : Exa) (query : string) :
  1 <= n ->
  (exists request,
      search_sends (fun svc => search_web svc exa query (Some n)) exa query request
      /\ request !! "num_results" = Some (VInt n))
  /\ (exists request,
         search_sends (fun svc => search_web svc exa query None) exa query request
         /\ request !! "num_results" = Some (VInt 5))
  /\ (forall now include_domains include_text max_age_days,
         max_age_resolves now max_age_days ->
         exists request,
           search_sends
             (fun svc =>
                advanced_search_web svc exa now query (Some n) include_domains include_text
                  max_age_days)
             exa query request
           /\ request !! "num_results" = Some (VInt n))
  /\ (forall now include_domains include_text max_age_days,
         max_age_resolves now max_age_days ->
         exists request,
           search_sends
             (fun svc =>
                advanced_search_web svc exa now query None include_domains include_text
                  max_age_days)
             exa query request
           /\ request !! "num_results" = Some (VInt 5)).
Proof.
  intros Hn.
  assert (py_or (of_opt_int (Some n)) (VInt (default_num_results websearch_config))
          = VInt n) as Hsome.
  { unfold py_or, of_opt_int, truthy.
    destruct (n =? 0) eqn:E; [apply Z.eqb_eq in E; lia | reflexivity]. }
  split; [|split; [|split]].
  - eexists. split; [apply search_web_sends|].
    rewrite lookup_insert_ne by done. unfold search_web_args. rewrite Hsome.
    apply lookup_singleton_eq.
  - eexists. split; [apply search_web_sends|].
    rewrite lookup_insert_ne by done. reflexivity.
  - intros now include_domains include_text max_age_days Hage.
    destruct (advanced_search_args_built now (Some n) include_domains include_text
                max_age_days Hage) as [args Hargs].
    eexists. split; [apply (advanced_search_web_sends _ _ _ _ _ _ _ _ Hargs)|].
    rewrite lookup_insert_ne by done.
    rewrite (advanced_search_args_num_results _ _ _ _ _ _ Hargs). now rewrite Hsome.
  - intros now include_domains include_text max_age_days Hage.
    destruct (advanced_search_args_built now None include_domains include_text
                max_age_days Hage) as [args Hargs].
    eexists. split; [apply (advanced_search_web_sends _ _ _ _ _ _ _ _ Hargs)|].
    rewrite lookup_insert_ne by done.
    now rewrite (advanced_search_args_num_results _ _ _ _ _ _ Hargs).
Qed.

Lemma result_count_resolution_witness :
  (exists request,
      search_sends
        (fun svc => search_web svc (mkExa Sample.key) "latest AI developments" (Some 3))
        (mkExa Sample.key) "latest AI developments" request
      /\ request !! "num_results" = Some (VInt 3))
  /\ (exists request,
         search_sends
           (fun svc =>
              advanced_search_web svc (mkExa Sample.key) Sample.now "gemma 3" (Some 3) None
                (Some "open source") None)
           (mkExa Sample.key) "gemma 3" request
         /\ request !! "num_results" = Some (VInt 3)).
Proof.
  split.
  - destruct (result_count_resolution 3 (mkExa Sample.key) "latest AI developments"
                ltac:(lia)) as (Hweb & _).
    exact Hweb.
  - destruct (result_count_resolution 3 (mkExa Sample.key) "gemma 3" ltac:(lia))
      as (_ & _ & Hadv & _).
    apply (Hadv Sample.now None (Some "open source") None). exact I.
Defined.




(** Reading an attribute that is there. *)
Lemma attr_some (r : pyval) (name : string) (v : pyval) :
  attr r name = Some v -> hasattr r name = true /\ getattr r name = Ok v.
Proof.
  destruct r; simpl; try discriminate. intros ->. now split.
Qed.

Lemma attr_none (r : pyval) (name : string) :
  attr r name = None -> hasattr r name = false.
Proof.
  destruct r; simpl; try reflexivity. now intros ->.
Qed.

(** One turn of the loop appends the block of the entry. *)
Lemma format_search_result_block (acc : string) (idx : Z) (r u : pyval) :
  attr r "url" = Some u ->
  format_search_result acc idx r = Ok (acc +:+ entry_block idx r).
Proof.
  intros Hurl.
  unfold format_search_result, entry_block, entry_heading, entry_title, entry_url,
    entry_published, field.
  rewrite Hurl. destruct (attr_some _ _ _ Hurl) as [_ ->].
  destruct (attr r "title") as [t|] eqn:Ht;
    [destruct (attr_some _ _ _ Ht) as [-> ->] | rewrite (attr_none _ _ Ht)];
  destruct (attr r "published_date") as [p|] eqn:Hp;
    [destruct (attr_some _ _ _ Hp) as [-> ->] | rewrite (attr_none _ _ Hp)
    |destruct (attr_some _ _ _ Hp) as [-> ->] | rewrite (attr_none _ _ Hp)];
  destruct (attr r "summary") as [sm|] eqn:Hs;
    try (destruct (attr_some _ _ _ Hs) as [-> ->]);
    try rewrite (attr_none _ _ Hs);
    simpl;
    try destruct (truthy t); try destruct (truthy p); try destruct (truthy sm);
    simpl; rewrite ?append_assoc; reflexivity.
Qed.

(** The loop appends the blocks of the entries, numbered from [idx]. *)
Lemma format_search_result_loop (items : list pyval) :
  (forall r, In r items -> is_Some (attr r "url")) ->
  forall (idx : Z) (acc : string),
    for_enumerate format_search_result items idx acc
    = Ok (acc +:+ joined (enumerated entry_block idx items)).
Proof.
  induction items as [|r items IH]; intros Hurl idx acc.
  - simpl. unfold joined. simpl. now rewrite append_empty_r.
  - destruct (Hurl r (or_introl eq_refl)) as [u Hu].
    simpl for_enumerate. rewrite (format_search_result_block _ _ _ _ Hu).
    simpl. rewrite IH by (intros r' Hr'; apply Hurl; now right).
    unfold joined. simpl. now rewrite append_assoc.
Qed.

Lemma enumerated_length (block : Z -> pyval -> string) (items : list pyval) :
  forall idx, length (enumerated block idx items) = length items.
Proof.
  induction items as [|r items IH]; intros idx; simpl; [reflexivity | now rewrite IH].
Qed.

Lemma enumerated_lookup (block : Z -> pyval -> string) (items : list pyval) :
  forall (idx : Z) (k : nat) (r : pyval),
    items !! k = Some r ->
    enumerated block idx items !! k = Some (block (idx + Z.of_nat k) r).
Proof.
  induction items as [|x items IH]; intros idx k r Hk.
  - discriminate.
  - destruct k as [|k]; simpl in *.
    + injection Hk as ->. now rewrite Z.add_0_r.
    + rewrite (IH (idx + 1) k r Hk). do 2 f_equal. lia.
Qed.

(** C5: a search response of N >= 1 entries is reported as the heading
    followed by exactly N blocks, the k-th being the block of the k-th
    entry of the response, numbered k, whichever of title, published
    date and summary the entries have; the block of an entry without a
    summary is its numbered line and a blank line, and the numbering of
    the later entries does not depend on it. *)
Theorem search_report_enumerates (search_results : pyval) (items : list pyval) :
  items <> [] ->
  getattr search_results "results" = Ok (VList items) ->
  (forall r, In r items -> is_Some (attr r "url")) ->
  let blocks := enumerated entry_block 1 items in
  format_search_results search_results = Ok (search_heading +:+ joined blocks)
  /\ length blocks = length items
  /\ (forall (k : nat) (r : pyval),
         items !! k = Some r ->
         blocks !! k = Some (entry_block (Z.of_nat k + 1) r))
  /\ (forall (idx : Z) (r : pyval),
         field r "summary" = None -> entry_block idx r = entry_heading idx r +:+ nl).
Proof.
  intros Hne Hres Hurl blocks. split; [|split; [|split]].
  - unfold format_search_results. rewrite Hres. simpl.
    destruct items as [|r items]; [congruence|].
    apply (format_search_result_loop (r :: items) Hurl).
  - apply enumerated_length.
  - intros k r Hk. unfold blocks. rewrite (enumerated_lookup _ _ 1 k r Hk).
    do 2 f_equal. lia.
  - intros idx r Hsum. unfold entry_block. now rewrite Hsum.
Qed.

Lemma search_report_enumerates_witness :
  format_search_results Sample.two_results
  = Ok (search_heading
          +:+ "**1.** [First](https://a.example) (Published: 2025-01-01)" +:+ nl
          +:+ "> **Summary:** Points" +:+ nl +:+ nl
          +:+ "**2.** [No title](https://b.example)" +:+ nl +:+ nl).
Proof.
  pose proof (search_report_enumerates Sample.two_results
                [VObj "Result" "Result(...)"
                   [("title", VStr "First"); ("url", VStr "https://a.example");
                    ("published_date", VStr "2025-01-01"); ("summary", VStr "Points")];
                 VObj "Result" "Result(...)"
                   [("title", VNone); ("url", VStr "https://b.example");
                    ("published_date", VNone); ("summary", VNone)]]) as H.
  destruct H as [Hreport _].
  - discriminate.
  - reflexivity.
  - intros r [<-|[<-|[]]]; eexists; reflexivity.
  - rewrite Hreport. reflexivity.
Defined.

End Search.

(** ** The crawl server *)

Section Crawl.

Import FireCrawl.

Variable svc : FirecrawlService.

(** Running a [try] block once the client handle is at hand. *)
Lemma scrape_url_body_run (url : string) (formats : list string)
    (st st1 : State) (app : FirecrawlApp) :
  get_firecrawl_app st = (Ok app, st1) ->
  scrape_url_body svc url formats st
  = (response ← fc_scrape_url svc (app_api_key app) url (scrape_params formats);
     format_markdown_with_metadata response, st1).
Proof.
  intros Happ. unfold scrape_url_body, mbind, fc_bind, lift. rewrite Happ.
  now destruct (fc_scrape_url svc (app_api_key app) url (scrape_params formats)).
Qed.

Lemma check_crawl_status_body_run (job_id : string) (st st1 : State) (app : FirecrawlApp) :
  get_firecrawl_app st = (Ok app, st1) ->
  check_crawl_status_body svc job_id st
  = (status ← fc_check_crawl_status svc (app_api_key app) job_id;
     format_crawl_status status, st1).
Proof.
  intros Happ. unfold check_crawl_status_body, mbind, fc_bind, lift. rewrite Happ.
  now destruct (fc_check_crawl_status svc (app_api_key app) job_id).
Qed.

Lemma map_website_body_run (url : string) (include_subdomains : bool)
    (st st1 : State) (app : FirecrawlApp) :
  get_firecrawl_app st = (Ok app, st1) ->
  map_website_body svc url include_subdomains st
  = (map_result ← fc_map_url svc (app_api_key app) url (map_params include_subdomains);
     format_mapped_links map_result, st1).
Proof.
  intros Happ. unfold map_website_body, mbind, fc_bind, lift. rewrite Happ.
  now destruct (fc_map_url svc (app_api_key app) url (map_params include_subdomains)).
Qed.

Lemma crawl_website_body_run (url : string) (limit max_depth : Z) (formats : list string)
    (st st1 : State) (app : FirecrawlApp) (crawl_result : pyval) :
  get_firecrawl_app st = (Ok app, st1) ->
  fc_crawl_url svc (app_api_key app) url (crawl_params limit max_depth formats)
  = Ok crawl_result ->
  crawl_website_body svc url limit max_depth formats st
  = (job_id ← get crawl_result "jobId" VNone;
     if negb (truthy job_id)
     then error ← get crawl_result "error" (VStr "");
          mret ("Error: Failed to start crawl job. " +:+ str error)
     else mret (crawl_started job_id), st1).
Proof.
  intros Happ Hcrawl. unfold crawl_website_body, mbind, fc_bind, lift.
  rewrite Happ, Hcrawl. unfold result_bind.
  destruct (get crawl_result "jobId" VNone) as [job_id|e]; [|reflexivity].
  destruct (negb (truthy job_id)); [|reflexivity].
  now destruct (get crawl_result "error" (VStr "")).
Qed.

(** C2: when the response to [crawl_website] has no [jobId], the
    report is "Error: Failed to start crawl job. " followed by the
    provider's error text, if any; it is not the report of a started
    job, whatever the job id; and the process is left as building the
    client handle left it: nothing about a job is kept. *)
Theorem crawl_without_job_id (url : string) (limit max_depth : option Z)
    (formats : option (list string)) (st st1 : State) (app : FirecrawlApp)
    (response : list (string * pyval)) :
  get_firecrawl_app st = (Ok app, st1) ->
  fc_crawl_url svc (app_api_key app) url
    (crawl_params (or_default limit 10) (or_default max_depth 2)
       (or_default formats default_formats))
  = Ok (VDict response) ->
  assoc "jobId" response = None ->
  let error := match assoc "error" response with Some e => str e | None => "" end in
  let report := "Error: Failed to start crawl job. " +:+ error in
  crawl_website svc url limit max_depth formats st = (Ok report, st1)
  /\ String.prefix "Error: Failed to start crawl job." report = true
  /\ (forall job_id, report <> crawl_started job_id).
Proof.
  intros Happ Hcrawl Hjob error report. split; [|split].
  - unfold crawl_website, fc_try_except.
    rewrite (crawl_website_body_run _ _ _ _ _ _ _ _ Happ Hcrawl).
    unfold get. rewrite Hjob. simpl. unfold report, error.
    now destruct (assoc "error" response).
  - change report with ("Error: Failed to start crawl job." +:+ (" " +:+ error)).
    apply prefix_append.
  - intros job_id Heq. unfold report, crawl_started in Heq. discriminate Heq.
Qed.

(** C10: when the client returns an empty or absent status snapshot,
    [check_crawl_status] reports the fixed text "Error: Failed to
    retrieve crawl status." and no status block. *)
Theorem empty_status_report (job_id : string) (st st1 : State) (app : FirecrawlApp)
    (status : pyval) :
  get_firecrawl_app st = (Ok app, st1) ->
  fc_check_crawl_status svc (app_api_key app) job_id = Ok status ->
  truthy status = false ->
  format_crawl_status status = Ok "Error: Failed to retrieve crawl status."
  /\ check_crawl_status svc job_id st
     = (Ok "Error: Failed to retrieve crawl status.", st1).
Proof.
  intros Happ Hstatus Hfalsy.
  assert (format_crawl_status status = Ok "Error: Failed to retrieve crawl status.")
    as Hformat by (unfold format_crawl_status; now rewrite Hfalsy).
  split; [exact Hformat|].
  unfold check_crawl_status, fc_try_except.
  rewrite (check_crawl_status_body_run _ _ _ _ Happ), Hstatus.
  simpl. now rewrite Hformat.
Qed.

(** The loop over the links appends their lines, numbered from
    [idx + 1]. *)
Lemma format_mapped_link_loop (items : list pyval) :
  forall (idx : Z) (acc : string),
    for_enumerate format_mapped_link items idx acc
    = Ok (acc +:+ joined (enumerated link_line (idx + 1) items)).
Proof.
  induction items as [|link items IH]; intros idx acc.
  - simpl. unfold joined. simpl. now rewrite append_empty_r.
  - simpl for_enumerate. unfold format_mapped_link at 1. simpl.
    rewrite IH. unfold joined, link_line. simpl. now rewrite !append_assoc.
Qed.

(** C6: for a successful response to [map_website], the report is the
    heading, which states the number of links returned, followed by one
    line for each link, in the order of the response and numbered from
    1; without links the heading states "Found 0 links" and nothing
    follows it. *)
Theorem mapped_links_report (url : string) (include_subdomains : option bool)
    (st st1 : State) (app : FirecrawlApp) (map_result success : pyval)
    (links : list pyval) :
  get_firecrawl_app st = (Ok app, st1) ->
  fc_map_url svc (app_api_key app) url (map_params (or_default include_subdomains true))
  = Ok map_result ->
  get map_result "success" VNone = Ok success ->
  truthy success = true ->
  get map_result "links" (VList []) = Ok (VList links) ->
  let lines := enumerated link_line 1 links in
  map_website svc url include_subdomains st
  = (Ok (map_heading (Z.of_nat (length links)) +:+ joined lines), st1)
  /\ length lines = length links
  /\ (forall (k : nat) (link : pyval),
         links !! k = Some link -> lines !! k = Some (link_line (Z.of_nat k + 1) link))
  /\ (links = [] ->
      map_website svc url include_subdomains st
      = (Ok ("# Website Map Results" +:+ nl +:+ nl +:+ "Found 0 links:" +:+ nl +:+ nl), st1)).
Proof.
  intros Happ Hmap Hsuccess Htrue Hlinks lines.
  assert (map_website svc url include_subdomains st
          = (Ok (map_heading (Z.of_nat (length links)) +:+ joined lines), st1)) as Hreport.
  { unfold map_website, fc_try_except.
    rewrite (map_website_body_run _ _ _ _ _ Happ), Hmap. simpl.
    unfold format_mapped_links. rewrite Hsuccess. simpl. rewrite Htrue. simpl.
    rewrite Hlinks. simpl. rewrite format_mapped_link_loop. simpl.
    unfold map_heading, lines. now rewrite !append_assoc. }
  split; [exact Hreport|]. split; [apply enumerated_length|]. split.
  - intros k link Hk. unfold lines. rewrite (enumerated_lookup _ _ 1 k link Hk).
    do 2 f_equal. lia.
  - intros ->. rewrite Hreport. reflexivity.
Qed.

End Crawl.

Lemma crawl_without_job_id_witness :
  crawl_website Sample.service "https://example.com" (Some 5) None None Sample.state
  = (Ok "Error: Failed to start crawl job. Insufficient credits", Sample.started).
Proof.
  destruct (crawl_without_job_id Sample.service "https://example.com" (Some 5) None None
              Sample.state Sample.started (mkApp Sample.key) Sample.crawl_failure)
    as [Hreport _]; [reflexivity..|].
  exact Hreport.
Defined.

Lemma empty_status_report_witness :
  check_crawl_status Sample.service "job-1" Sample.state
  = (Ok "Error: Failed to retrieve crawl status.", Sample.started).
Proof.
  destruct (empty_status_report Sample.service "job-1" Sample.state Sample.started
              (mkApp Sample.key) (VDict []))
    as [_ Hreport]; [reflexivity..|].
  exact Hreport.
Defined.

Lemma mapped_links_report_witness :
  map_website Sample.service "https://example.com" None Sample.state
  = (Ok ("# Website Map Results" +:+ nl +:+ nl +:+ "Found 2 links:" +:+ nl +:+ nl
           +:+ "1. https://example.com/" +:+ nl
           +:+ "2. https://example.com/about" +:+ nl), Sample.started).
Proof.
  destruct (mapped_links_report Sample.service "https://example.com" None Sample.state Sample.started
              (mkApp Sample.key) Sample.two_links (VBool true)
              [VStr "https://example.com/"; VStr "https://example.com/about"])
    as [Hreport _]; [reflexivity..|].
  rewrite Hreport. reflexivity.
Defined.

(** ** What the code raises *)

Section Raises.

Lemma safe_ok {A : Type} (a : A) : safe (Ok a).
Proof. intros e. discriminate. Qed.

Lemma safe_bind {A B : Type} (m : result A) (k : A -> result B) :
  safe m -> (forall a, safe (k a)) -> safe (m ≫= k).
Proof.
  intros Hm Hk e. destruct m as [a|e']; simpl.
  - apply Hk.
  - intros [= <-]. now apply Hm.
Qed.

Lemma safe_get (v : pyval) (key : string) (default : pyval) : safe (get v key default).
Proof. intros e. destruct v; simpl; intros [= <-]; reflexivity. Qed.

Lemma safe_getattr (v : pyval) (name : string) : safe (getattr v name).
Proof.
  intros e. destruct v; simpl; try (intros [= <-]; reflexivity).
  destruct (assoc name attrs); intros [= <-]; reflexivity.
Qed.

Lemma safe_iter (v : pyval) : safe (iter v).
Proof. intros e. destruct v; simpl; intros [= <-]; reflexivity. Qed.

Lemma safe_len (v : pyval) : safe (len v).
Proof. intros e. destruct v; simpl; intros [= <-]; reflexivity. Qed.

Lemma safe_concat_str (text : string) (v : pyval) : safe (concat_str text v).
Proof. intros e. destruct v; simpl; intros [= <-]; reflexivity. Qed.

Lemma safe_for_enumerate {A : Type} (body : A -> Z -> pyval -> result A) :
  (forall acc idx x, safe (body acc idx x)) ->
  forall items idx acc, safe (for_enumerate body items idx acc).
Proof.
  intros Hbody. induction items as [|x items IH]; intros idx acc; simpl.
  - apply safe_ok.
  - apply safe_bind; [apply Hbody | intros acc'; apply IH].
Qed.

Lemma safe_sub_days (now : Datetime.datetime) (days : Z) : safe (Datetime.sub_days now days).
Proof.
  intros e. unfold Datetime.sub_days.
  repeat match goal with
         | |- context [if ?b then _ else _] => destruct b
         end;
    try (intros [= <-]; reflexivity).
  all: destruct (Datetime.ord2ymd _) as [[y m] d]; discriminate.
Qed.

(** The steps of a block that raises nothing but instances of
    [Exception]. *)
Ltac safe_steps :=
  repeat first
    [ apply safe_ok
    | apply safe_get
    | apply safe_getattr
    | apply safe_iter
    | apply safe_len
    | apply safe_concat_str
    | apply safe_sub_days
    | apply safe_bind; [|intros ?]
    | match goal with
      | |- safe (if ?b then _ else _) => destruct b
      | |- safe (match ?o with Some _ => _ | None => _ end) => destruct o
      end ].

Lemma safe_format_search_result (acc : string) (idx : Z) (r : pyval) :
  safe (format_search_result acc idx r).
Proof. unfold format_search_result. safe_steps. Qed.

Lemma safe_format_search_results (search_results : pyval) :
  safe (format_search_results search_results).
Proof.
  unfold format_search_results. safe_steps.
  apply safe_for_enumerate. intros. apply safe_format_search_result.
Qed.

Lemma safe_format_markdown_with_metadata (response : pyval) :
  safe (format_markdown_with_metadata response).
Proof. unfold format_markdown_with_metadata. safe_steps. Qed.

Lemma safe_format_crawled_page (acc : string) (idx : Z) (page : pyval) :
  safe (format_crawled_page acc idx page).
Proof. unfold format_crawled_page. safe_steps. Qed.

Lemma safe_format_crawl_status (status : pyval) : safe (format_crawl_status status).
Proof.
  unfold format_crawl_status. safe_steps.
  apply safe_for_enumerate. intros. apply safe_format_crawled_page.
Qed.

Lemma safe_format_mapped_links (map_result : pyval) :
  safe (format_mapped_links map_result).
Proof.
  unfold format_mapped_links. safe_steps.
  apply safe_for_enumerate. intros. unfold format_mapped_link. apply safe_ok.
Qed.

Lemma safe_advanced_search_args (now : Datetime.datetime) (num_results : option Z)
    (include_domains : option (list string)) (include_text : option string)
    (max_age_days : option Z) :
  safe (advanced_search_args now num_results include_domains include_text max_age_days).
Proof. unfold advanced_search_args. safe_steps. Qed.

(** A crawl server block: the handle, the client's answer, and what is
    made of the answer. *)
Lemma safe_crawl_block {A : Type} (answer : FirecrawlApp -> result A)
    (rest : A -> result string) (st : State) :
  (forall app, safe (answer app)) ->
  (forall a, safe (rest a)) ->
  safe (fst ((app ← get_firecrawl_app; a ← lift (answer app); lift (rest a)) st)).
Proof.
  intros Hanswer Hrest e. unfold mbind, fc_bind, lift, get_firecrawl_app.
  destruct (firecrawl_app st) as [app|]; [|destruct (api_key st) as [key|]]; simpl.
  - destruct (answer app) as [a|e'] eqn:Ha; simpl; [apply Hrest|].
    intros [= <-]. now apply (Hanswer app).
  - destruct (answer (mkApp key)) as [a|e'] eqn:Ha; simpl; [apply Hrest|].
    intros [= <-]. now apply (Hanswer (mkApp key)).
  - intros [= <-]. reflexivity.
Qed.

End Raises.

(** ** The tool surface *)

Section Tools.

Import Gateway.

Variable w : World.

(** A [try] block whose client raises, raises. *)
Lemma scrape_url_body_raise (url : string) (formats : list string)
    (st st1 : State) (app : FirecrawlApp) (e : exn) :
  get_firecrawl_app st = (Ok app, st1) ->
  fc_scrape_url (firecrawl_service w) (app_api_key app) url (scrape_params formats)
  = Raise e ->
  scrape_url_body (firecrawl_service w) url formats st = (Raise e, st1).
Proof.
  intros Happ Hraise. unfold scrape_url_body, mbind, fc_bind, lift.
  now rewrite Happ, Hraise.
Qed.

Lemma crawl_website_body_raise (url : string) (limit max_depth : Z) (formats : list string)
    (st st1 : State) (app : FirecrawlApp) (e : exn) :
  get_firecrawl_app st = (Ok app, st1) ->
  fc_crawl_url (firecrawl_service w) (app_api_key app) url
    (crawl_params limit max_depth formats) = Raise e ->
  crawl_website_body (firecrawl_service w) url limit max_depth formats st = (Raise e, st1).
Proof.
  intros Happ Hraise. unfold crawl_website_body, mbind, fc_bind, lift.
  now rewrite Happ, Hraise.
Qed.

Lemma check_crawl_status_body_raise (job_id : string)
    (st st1 : State) (app : FirecrawlApp) (e : exn) :
  get_firecrawl_app st = (Ok app, st1) ->
  fc_check_crawl_status (firecrawl_service w) (app_api_key app) job_id = Raise e ->
  check_crawl_status_body (firecrawl_service w) job_id st = (Raise e, st1).
Proof.
  intros Happ Hraise. unfold check_crawl_status_body, mbind, fc_bind, lift.
  now rewrite Happ, Hraise.
Qed.

Lemma map_website_body_raise (url : string) (include_subdomains : bool)
    (st st1 : State) (app : FirecrawlApp) (e : exn) :
  get_firecrawl_app st = (Ok app, st1) ->
  fc_map_url (firecrawl_service w) (app_api_key app) url (map_params include_subdomains)
  = Raise e ->
  map_website_body (firecrawl_service w) url include_subdomains st = (Raise e, st1).
Proof.
  intros Happ Hraise. unfold map_website_body, mbind, fc_bind, lift.
  now rewrite Happ, Hraise.
Qed.

Lemma extract_structured_data_body_raise (urls : list string) (prompt : string)
    (schema : pyval) (st st1 : State) (app : FirecrawlApp) (e : exn) :
  get_firecrawl_app st = (Ok app, st1) ->
  fc_extract (firecrawl_service w) (app_api_key app) urls (extract_params prompt schema)
  = Raise e ->
  extract_structured_data_body (json_dumps w) (firecrawl_service w) urls prompt schema st
  = (Raise e, st1).
Proof.
  intros Happ Hraise. unfold extract_structured_data_body, mbind, fc_bind, lift.
  now rewrite Happ, Hraise.
Qed.

(** When the client behind a call raises, so does the [try] block. *)
Lemma client_raises_body (c : call) (p : Process) (e : exn) :
  client_reached w c p -> client_raises w c e -> body w c p = Raise e.
Proof.
  destruct c; simpl; intros Hreached Hraises.
  - unfold search_web_body, search_and_contents. now rewrite Hraises.
  - destruct Hreached as [args Hargs].
    unfold advanced_search_web_body, search_and_contents. rewrite Hargs. simpl.
    now rewrite Hraises.
  - destruct Hreached as (app & st & Happ).
    now rewrite (scrape_url_body_raise _ _ _ _ _ e Happ (Hraises _ _ _)).
  - destruct Hreached as (app & st & Happ).
    now rewrite (crawl_website_body_raise _ _ _ _ _ _ _ e Happ (Hraises _ _ _)).
  - destruct Hreached as (app & st & Happ).
    now rewrite (check_crawl_status_body_raise _ _ _ _ e Happ (Hraises _ _)).
  - destruct Hreached as (app & st & Happ).
    now rewrite (map_website_body_raise _ _ _ _ _ e Happ (Hraises _ _ _)).
  - destruct Hreached as (app & st & Happ).
    now rewrite (extract_structured_data_body_raise _ _ _ _ _ _ e Happ (Hraises _ _ _)).
Qed.

(** Under clients that raise only instances of [Exception], so does
    every [try] block. *)
Lemma body_safe (c : call) (p : Process) :
  raises_exceptions_only w -> safe (body w c p).
Proof.
  intros (Hsearch & Hscrape & Hcrawl & Hstatus & Hmap & Hextract & Hdumps).
  destruct c; simpl.
  - unfold search_web_body, search_and_contents.
    apply safe_bind; [intros e; apply Hsearch | intros; apply safe_format_search_results].
  - unfold advanced_search_web_body, search_and_contents.
    apply safe_bind; [apply safe_advanced_search_args | intros args].
    apply safe_bind; [intros e; apply Hsearch | intros; apply safe_format_search_results].
  - apply (safe_crawl_block
             (fun app => fc_scrape_url (firecrawl_service w) (app_api_key app) url _)).
    + intros app e. apply Hscrape.
    + apply safe_format_markdown_with_metadata.
  - intros e. unfold crawl_website_body, mbind, fc_bind, lift, get_firecrawl_app.
    destruct (firecrawl_app _) as [app|]; [|destruct (api_key _) as [key|]]; simpl;
      try (intros [= <-]; reflexivity);
      (destruct (fc_crawl_url _ _ _ _) as [crawl_result|e'] eqn:Hanswer; simpl;
       [|intros [= <-]; eapply Hcrawl; eauto]);
      (destruct (get crawl_result "jobId" VNone) as [job_id|e'] eqn:Hjob; simpl;
       [|intros [= <-]; eapply safe_get; eauto]);
      (destruct (negb (truthy job_id)); simpl; [|discriminate]);
      (destruct (get crawl_result "error" (VStr "")) as [error|e'] eqn:Herror; simpl;
       [discriminate | intros [= <-]; eapply safe_get; eauto]).
  - apply (safe_crawl_block
             (fun app => fc_check_crawl_status (firecrawl_service w) (app_api_key app) _)).
    + intros app e. apply Hstatus.
    + apply safe_format_crawl_status.
  - apply (safe_crawl_block
             (fun app => fc_map_url (firecrawl_service w) (app_api_key app) url _)).
    + intros app e. apply Hmap.
    + apply safe_format_mapped_links.
  - intros e.
    unfold extract_structured_data_body, mbind, fc_bind, lift, get_firecrawl_app.
    destruct (firecrawl_app _) as [app|]; [|destruct (api_key _) as [key|]]; simpl;
      try (intros [= <-]; reflexivity);
      (destruct (fc_extract _ _ _ _) as [data|e'] eqn:Hanswer; simpl;
       [|intros [= <-]; eapply Hextract; eauto]);
      (destruct (get data "success" VNone) as [success|e'] eqn:Hsuccess; simpl;
       [|intros [= <-]; eapply safe_get; eauto]);
      (destruct (negb (truthy success)); simpl;
       [destruct (get data "error" (VStr "")) as [error|e'] eqn:Herror; simpl;
        [discriminate | intros [= <-]; eapply safe_get; eauto]|]);
      (destruct (get data "data" (VDict [])) as [payload|e'] eqn:Hpayload; simpl;
       [|intros [= <-]; eapply safe_get; eauto]);
      (destruct (json_dumps w payload) as [text|e'] eqn:Htext; simpl;
       [discriminate | intros [= <-]; eapply Hdumps; eauto]).
Qed.

(** A call returns what its [try] block returns; when the block raises
    an instance of [Exception], it returns the error sentence of the
    operation followed by the message of the exception; any other
    exception leaves the call. *)
Lemma invoke_outcome (c : call) (p : Process) :
  exists p',
    invoke w c p
    = (match body w c p with
       | Ok r => Ok r
       | Raise e =>
           if is_exception e then Ok (error_sentence c +:+ exn_msg e) else Raise e
       end, p').
Proof.
  destruct c; simpl.
  - unfold search_web, try_except, search_error.
    destruct (search_web_body _ _ _ _) as [r|e]; eauto.
  - unfold advanced_search_web, try_except, search_error.
    destruct (advanced_search_web_body _ _ _ _ _ _ _ _) as [r|e]; eauto.
  - unfold scrape_url, fc_try_except.
    destruct (scrape_url_body _ _ _ _) as [[r|e] st']; simpl; eauto.
    destruct (is_exception e); simpl; rewrite ?append_assoc; eauto.
  - unfold crawl_website, fc_try_except.
    destruct (crawl_website_body _ _ _ _ _ _) as [[r|e] st']; simpl; eauto.
    destruct (is_exception e); simpl; rewrite ?append_assoc; eauto.
  - unfold check_crawl_status, fc_try_except.
    destruct (check_crawl_status_body _ _ _) as [[r|e] st']; simpl; eauto.
    destruct (is_exception e); simpl; rewrite ?append_assoc; eauto.
  - unfold map_website, fc_try_except.
    destruct (map_website_body _ _ _ _) as [[r|e] st']; simpl; eauto.
    destruct (is_exception e); simpl; rewrite ?append_assoc; eauto.
  - unfold extract_structured_data, fc_try_except.
    destruct (extract_structured_data_body _ _ _ _ _ _) as [[r|e] st']; simpl; eauto.
    destruct (is_exception e); simpl; eauto.
Qed.

(** C1, as the code has it: when whatever the clients and [json.dumps]
    raise is an instance of [Exception], every tool call returns a text
    report and lets no exception out; the report is what the [try]
    block of the operation returns or, when an exception is raised in
    it, the error sentence of the operation followed by the message of
    the exception, as it is; this is so in particular when the client
    raises. *)
Theorem tool_returns_report (c : call) (p : Process) :
  raises_exceptions_only w ->
  exists report p',
    invoke w c p = (Ok report, p')
    /\ match body w c p with
       | Ok r => report = r
       | Raise e => report = error_sentence c +:+ exn_msg e
       end
    /\ (forall e, client_reached w c p -> client_raises w c e ->
                  report = error_sentence c +:+ exn_msg e).
Proof.
  intros Hw. pose proof (body_safe c p Hw) as Hsafe.
  destruct (invoke_outcome c p) as (p' & Hinvoke).
  assert (exists report,
             invoke w c p = (Ok report, p')
             /\ match body w c p with
                | Ok r => report = r
                | Raise e => report = error_sentence c +:+ exn_msg e
                end) as (report & Hreport & Hbody).
  { rewrite Hinvoke. destruct (body w c p) as [r|e]; [eauto|].
    rewrite (Hsafe e eq_refl). eauto. }
  exists report, p'. split; [exact Hreport|]. split; [exact Hbody|].
  intros e Hreached Hraises.
  now rewrite (client_raises_body c p e Hreached Hraises) in Hbody.
Qed.

End Tools.

Lemma tool_returns_report_witness :
  fst (Gateway.invoke Sample.world (Gateway.ScrapeUrl "https://example.com" None)
         (Gateway.process_with_key Sample.key false))
  = Ok "An error occurred while scraping https://example.com: Unauthorized: Invalid token sk-live-1".
Proof.
  destruct (tool_returns_report Sample.world
              (Gateway.ScrapeUrl "https://example.com" None)
              (Gateway.process_with_key Sample.key false))
    as (report & p' & Hinvoke & _ & Hraise).
  - unfold Gateway.raises_exceptions_only. simpl.
    repeat split; intros; try discriminate.
    match goal with H : Raise _ = Raise _ |- _ => injection H as <- end. reflexivity.
  - rewrite Hinvoke. simpl. f_equal.
    rewrite (Hraise (Exn "HTTPError" "Unauthorized: Invalid token sk-live-1")).
    + reflexivity.
    + simpl. do 2 eexists. reflexivity.
    + intros key url params. reflexivity.
Defined.

(** C1, as stated, fails: an exception of the client that is not an
    instance of [Exception], such as [KeyboardInterrupt], is not caught
    by [except Exception] and leaves the tool. *)
Lemma tool_returns_report_counterexample :
  fst (Gateway.invoke
         (Layout.world_of (Raise (Exn "KeyboardInterrupt" "")) (fun _ => Ok "{}"))
         (Gateway.ScrapeUrl "https://example.com" None)
         (Gateway.process_with_key Sample.key false))
  = Raise (Exn "KeyboardInterrupt" "").
Proof. reflexivity. Qed.

(** ** The credential *)

Section Credential.

Import Gateway.

Variable w : World.

(** The [try] block of a call does not depend on the key. *)
Lemma body_independent_of_key (c : call) (k1 k2 : string) (started : bool) :
  same_responses w k1 k2 ->
  body w c (process_with_key k1 started) = body w c (process_with_key k2 started).
Proof.
  intros (Hsearch & Hscrape & Hcrawl & Hstatus & Hmap & Hextract).
  destruct c; simpl.
  - unfold search_web_body, search_and_contents. simpl. now rewrite Hsearch.
  - unfold advanced_search_web_body, search_and_contents. simpl.
    destruct (advanced_search_args _ _ _ _ _) as [args|e]; [|reflexivity].
    simpl. now rewrite Hsearch.
  - unfold scrape_url_body, mbind, fc_bind, lift, get_firecrawl_app.
    destruct started; simpl; rewrite Hscrape;
      now destruct (fc_scrape_url _ k2 _ _) as [response|e].
  - unfold crawl_website_body, mbind, fc_bind, lift, get_firecrawl_app.
    destruct started; simpl; rewrite Hcrawl;
      destruct (fc_crawl_url _ k2 _ _) as [crawl_result|e]; simpl; try reflexivity;
      destruct (get crawl_result "jobId" VNone) as [job_id|e]; simpl; try reflexivity;
      destruct (negb (truthy job_id)); simpl; try reflexivity;
      now destruct (get crawl_result "error" (VStr "")).
  - unfold check_crawl_status_body, mbind, fc_bind, lift, get_firecrawl_app.
    destruct started; simpl; rewrite Hstatus;
      now destruct (fc_check_crawl_status _ k2 _) as [status|e].
  - unfold map_website_body, mbind, fc_bind, lift, get_firecrawl_app.
    destruct started; simpl; rewrite Hmap;
      now destruct (fc_map_url _ k2 _ _) as [map_result|e].
  - unfold extract_structured_data_body, mbind, fc_bind, lift, get_firecrawl_app.
    destruct started; simpl; rewrite Hextract;
      destruct (fc_extract _ k2 _ _) as [data|e]; simpl; try reflexivity;
      destruct (get data "success" VNone) as [success|e]; simpl; try reflexivity;
      destruct (negb (truthy success)); simpl;
      try (now destruct (get data "error" (VStr "")));
      destruct (get data "data" (VDict [])) as [payload|e]; simpl; try reflexivity;
      now destruct (json_dumps w payload).
Qed.

(** C8, as the code has it: two runs of a call that differ only in the
    credential, the clients answering alike under both, return the same
    report. *)
Theorem report_independent_of_key (c : call) (k1 k2 : string) (started : bool) :
  same_responses w k1 k2 ->
  fst (invoke w c (process_with_key k1 started))
  = fst (invoke w c (process_with_key k2 started)).
Proof.
  intros Hsame.
  destruct (invoke_outcome w c (process_with_key k1 started)) as [p1 ->].
  destruct (invoke_outcome w c (process_with_key k2 started)) as [p2 ->].
  simpl. now rewrite (body_independent_of_key c k1 k2 started Hsame).
Qed.

End Credential.

Lemma report_independent_of_key_witness :
  fst (Gateway.invoke Sample.world (Gateway.MapWebsite "https://example.com" None)
         (Gateway.process_with_key Sample.key false))
  = fst (Gateway.invoke Sample.world (Gateway.MapWebsite "https://example.com" None)
           (Gateway.process_with_key Sample.other_key false)).
Proof.
  apply (report_independent_of_key Sample.world).
  unfold Gateway.same_responses. repeat split; reflexivity.
Defined.

(** C8, as stated, fails: a report holds the API key when the client's
    error message quotes it, the clients answering alike under every
    key. *)
Lemma report_independent_of_key_counterexample :
  Gateway.same_responses Sample.world Sample.key Sample.other_key
  /\ exists report,
       fst (Gateway.invoke Sample.world (Gateway.ScrapeUrl "https://example.com" None)
              (Gateway.process_with_key Sample.key false))
       = Ok report
       /\ contains Sample.key report = true.
Proof.
  split.
  - unfold Gateway.same_responses. repeat split; reflexivity.
  - eexists. split; reflexivity.
Qed.

(** * Further properties of the servers *)

Import Layout.

(** ** The client handle *)

Section Handle.

Import Gateway.

(** X1: once [get_firecrawl_app] has returned a handle, calling it again
    returns the same handle and changes nothing: the client is built at
    most once, from the key in [api_key], which is left as it was. *)
Theorem client_handle_reused (st st1 : State) (app : FirecrawlApp) :
  get_firecrawl_app st = (Ok app, st1) ->
  get_firecrawl_app st1 = (Ok app, st1)
  /\ firecrawl_app st1 = Some app
  /\ api_key st1 = api_key st
  /\ (firecrawl_app st = None -> api_key st = Some (app_api_key app)).
Proof.
  unfold get_firecrawl_app. destruct st as [key handle]. simpl.
  destruct handle as [a|]; [|destruct key as [k|]]; intros [= <- <-]; simpl;
    repeat split; try reflexivity; discriminate.
Qed.

Lemma client_handle_reused_witness :
  get_firecrawl_app Sample.started = (Ok (mkApp Sample.key), Sample.started).
Proof.
  destruct (client_handle_reused Sample.state Sample.started (mkApp Sample.key))
    as [Hagain _]; [reflexivity|].
  exact Hagain.
Defined.

(** A handler that leaves the globals alone: the globals after the
    [try] statement are those after its body. *)
Lemma fc_try_except_state {A : Type} (body : fc A) (handler : exn -> fc A) (st : State) :
  (forall e st', snd (handler e st') = st') ->
  snd (fc_try_except body handler st) = snd (body st).
Proof.
  intros Hhandler. unfold fc_try_except.
  destruct (body st) as [[a|e] st']; simpl; [reflexivity|].
  destruct (is_exception e); [apply Hhandler|reflexivity].
Qed.

(** The globals after a tool are the globals after
    [get_firecrawl_app]: nothing else writes them. *)
Lemma scrape_url_state (svc : FirecrawlService) (url : string)
    (formats : option (list string)) (st : State) :
  snd (scrape_url svc url formats st) = snd (get_firecrawl_app st).
Proof.
  unfold scrape_url. rewrite fc_try_except_state by reflexivity.
  unfold scrape_url_body, mbind, fc_bind, lift.
  destruct (get_firecrawl_app st) as [[app|e] st1]; simpl; [|reflexivity].
  destruct (fc_scrape_url _ _ _ _) as [response|e]; simpl; [|reflexivity].
  now destruct (format_markdown_with_metadata response).
Qed.

Lemma crawl_website_state (svc : FirecrawlService) (url : string)
    (limit max_depth : option Z) (formats : option (list string)) (st : State) :
  snd (crawl_website svc url limit max_depth formats st) = snd (get_firecrawl_app st).
Proof.
  unfold crawl_website. rewrite fc_try_except_state by reflexivity.
  unfold crawl_website_body, mbind, fc_bind, lift.
  destruct (get_firecrawl_app st) as [[app|e] st1]; simpl; [|reflexivity].
  destruct (fc_crawl_url _ _ _ _) as [crawl_result|e]; simpl; [|reflexivity].
  destruct (get crawl_result "jobId" VNone) as [job_id|e]; simpl; [|reflexivity].
  destruct (negb (truthy job_id)); simpl; [|reflexivity].
  now destruct (get crawl_result "error" (VStr "")).
Qed.

Lemma check_crawl_status_state (svc : FirecrawlService) (job_id : string) (st : State) :
  snd (check_crawl_status svc job_id st) = snd (get_firecrawl_app st).
Proof.
  unfold check_crawl_status. rewrite fc_try_except_state by reflexivity.
  unfold check_crawl_status_body, mbind, fc_bind, lift.
  destruct (get_firecrawl_app st) as [[app|e] st1]; simpl; [|reflexivity].
  destruct (fc_check_crawl_status _ _ _) as [status|e]; simpl; [|reflexivity].
  now destruct (format_crawl_status status).
Qed.

Lemma map_website_state (svc : FirecrawlService) (url : string)
    (include_subdomains : option bool) (st : State) :
  snd (map_website svc url include_subdomains st) = snd (get_firecrawl_app st).
Proof.
  unfold map_website. rewrite fc_try_except_state by reflexivity.
  unfold map_website_body, mbind, fc_bind, lift.
  destruct (get_firecrawl_app st) as [[app|e] st1]; simpl; [|reflexivity].
  destruct (fc_map_url _ _ _ _) as [map_result|e]; simpl; [|reflexivity].
  now destruct (format_mapped_links map_result).
Qed.

Lemma extract_structured_data_state (dumps : pyval -> result string)
    (svc : FirecrawlService) (urls : list string) (prompt : string) (schema : pyval)
    (st : State) :
  snd (extract_structured_data dumps svc urls prompt schema st)
  = snd (get_firecrawl_app st).
Proof.
  unfold extract_structured_data. rewrite fc_try_except_state by reflexivity.
  unfold extract_structured_data_body, mbind, fc_bind, lift.
  destruct (get_firecrawl_app st) as [[app|e] st1]; simpl; [|reflexivity].
  destruct (fc_extract _ _ _ _) as [data|e]; simpl; [|reflexivity].
  destruct (get data "success" VNone) as [success|e]; simpl; [|reflexivity].
  destruct (negb (truthy success)); simpl;
    [now destruct (get data "error" (VStr ""))|].
  destruct (get data "data" (VDict [])) as [payload|e]; simpl; [|reflexivity].
  now destruct (dumps payload).
Qed.

(** X2: whatever a tool call does (a report, a provider failure, an
    exception of the client or of a formatter), it leaves the Exa handle
    and the key as they were; a Firecrawl handle that exists is kept,
    and one that does not is built by a crawl server call exactly when
    a key is set, from that key; the search calls never build it. *)
Theorem process_after_call (w : World) (c : call) (p : Process) :
  let p' := snd (invoke w c p) in
  exa p' = exa p
  /\ api_key (firecrawl p') = api_key (firecrawl p)
  /\ firecrawl_app (firecrawl p')
     = match firecrawl_app (firecrawl p) with
       | Some app => Some app
       | None => if is_crawl_call c then mkApp <$> api_key (firecrawl p) else None
       end.
Proof.
  assert (forall st : State,
             st = snd (get_firecrawl_app (firecrawl p)) ->
             api_key st = api_key (firecrawl p)
             /\ firecrawl_app st
                = match firecrawl_app (firecrawl p) with
                  | Some app => Some app
                  | None => mkApp <$> api_key (firecrawl p)
                  end) as Hstate.
  { intros st ->. unfold get_firecrawl_app.
    destruct (firecrawl p) as [key [a|]]; simpl; [now split|].
    destruct key as [k|]; simpl; now split. }
  destruct c; simpl.
  - repeat split. now destruct (firecrawl_app (firecrawl p)).
  - repeat split. now destruct (firecrawl_app (firecrawl p)).
  - pose proof (scrape_url_state (firecrawl_service w) url formats (firecrawl p)) as Hs.
    destruct (scrape_url _ _ _ _) as [r st]. simpl in *. split; [reflexivity|].
    now apply Hstate.
  - pose proof (crawl_website_state (firecrawl_service w) url limit max_depth formats
                  (firecrawl p)) as Hs.
    destruct (crawl_website _ _ _ _ _ _) as [r st]. simpl in *. split; [reflexivity|].
    now apply Hstate.
  - pose proof (check_crawl_status_state (firecrawl_service w) job_id (firecrawl p)) as Hs.
    destruct (check_crawl_status _ _ _) as [r st]. simpl in *. split; [reflexivity|].
    now apply Hstate.
  - pose proof (map_website_state (firecrawl_service w) url include_subdomains
                  (firecrawl p)) as Hs.
    destruct (map_website _ _ _ _) as [r st]. simpl in *. split; [reflexivity|].
    now apply Hstate.
  - pose proof (extract_structured_data_state (json_dumps w) (firecrawl_service w) urls
                  prompt schema (firecrawl p)) as Hs.
    destruct (extract_structured_data _ _ _ _ _ _) as [r st]. simpl in *.
    split; [reflexivity|]. now apply Hstate.
Qed.

(** X3: without a key in [FIRECRAWL_API_KEY], and no handle built
    before, every crawl server call reports its error sentence followed
    by the message about the missing variable, whatever the service
    would have answered, and leaves the process as it was. *)
Theorem missing_key_report (w : World) (c : call) (p : Process) :
  is_crawl_call c = true ->
  api_key (firecrawl p) = None ->
  firecrawl_app (firecrawl p) = None ->
  invoke w c p = (Ok (error_sentence c +:+ missing_key_message), p).
Proof.
  intros Hcall Hkey Hhandle. destruct p as [x [key handle]]. simpl in *. subst key handle.
  destruct c; try discriminate Hcall; simpl; now rewrite ?append_assoc.
Qed.

Lemma missing_key_report_witness :
  invoke Sample.world (CheckCrawlStatus "job-1") (mkProcess (mkExa "k") (mkState None None))
  = (Ok ("An error occurred while checking the crawl status for job job-1: "
           +:+ missing_key_message),
     mkProcess (mkExa "k") (mkState None None)).
Proof.
  apply (missing_key_report Sample.world (CheckCrawlStatus "job-1")); reflexivity.
Defined.

End Handle.

(** ** Reports of the crawl server *)

Section Reports.

Lemma bind_ok {A B : Type} (a : A) (k : A -> result B) : (Ok a ≫= k) = k a.
Proof. reflexivity. Qed.

(** Reading a dictionary. *)
Lemma get_dict (d : list (string * pyval)) (key : string) (default : pyval) :
  get (VDict d) key default = Ok (entry_or d key default).
Proof. reflexivity. Qed.

(** One turn of the loop over the crawled pages appends the two lines
    of the page. *)
Lemma format_crawled_page_block (acc : string) (idx : Z) (page : pyval)
    (md : list (string * pyval)) :
  page_metadata page = Some md ->
  format_crawled_page acc idx page = Ok (acc +:+ page_block (idx + 1) page).
Proof.
  intros Hmd. unfold page_block. rewrite Hmd.
  unfold page_metadata in Hmd. destruct page as [| | | | |p|]; try discriminate.
  unfold format_crawled_page. rewrite get_dict. simpl.
  destruct (entry_or p "metadata" (VDict [])) as [| | | | |md'|]; try discriminate.
  injection Hmd as ->. rewrite !get_dict. simpl. now rewrite !append_assoc.
Qed.

Lemma format_crawled_page_loop (pages : list pyval) :
  (forall page, In page pages -> is_Some (page_metadata page)) ->
  forall (idx : Z) (acc : string),
    for_enumerate format_crawled_page pages idx acc
    = Ok (acc +:+ joined (enumerated page_block (idx + 1) pages)).
Proof.
  induction pages as [|page pages IH]; intros Hpages idx acc.
  - simpl. unfold joined. simpl. now rewrite append_empty_r.
  - destruct (Hpages page (or_introl eq_refl)) as [md Hmd].
    simpl for_enumerate. rewrite (format_crawled_page_block _ _ _ _ Hmd). simpl.
    rewrite IH by (intros page' Hin; apply Hpages; now right).
    unfold joined. simpl. now rewrite append_assoc.
Qed.

(** The status block comes first, whatever follows. *)
Lemma format_crawl_status_block (d : list (string * pyval)) :
  d <> [] ->
  format_crawl_status (VDict d)
  = (let data := entry_or d "data" VNone in
     if truthy data && is_list data
     then n ← len data;
          pages ← iter data;
          for_enumerate format_crawled_page pages 0
            (status_block d +:+ nl +:+ "## Crawled Pages: " +:+ str_int n +:+ nl +:+ nl)
     else Ok (status_block d)).
Proof.
  intros Hd. unfold format_crawl_status.
  destruct d as [|kv d]; [congruence|]. simpl truthy. simpl negb. cbv iota.
  rewrite !get_dict. simpl. unfold status_block.
  destruct (truthy (entry_or (kv :: d) "expiresAt" VNone));
    destruct (truthy (entry_or (kv :: d) "data" VNone)
              && is_list (entry_or (kv :: d) "data" VNone));
    simpl; rewrite ?append_assoc, ?append_empty_r; try reflexivity;
    destruct (len (entry_or (kv :: d) "data" VNone)); simpl;
    rewrite ?append_assoc; reflexivity.
Qed.

(** X4: for a status snapshot with a list of crawled pages that is not
    empty, each page a dictionary whose metadata is absent or a
    dictionary, the report is the status block, the heading with the
    number of pages, and two lines for each page, in the order of the
    snapshot and numbered from 1, with "Unknown Title" and "Unknown URL"
    for what a page lacks. *)
Theorem crawl_status_pages (d : list (string * pyval)) (pages : list pyval) :
  assoc "data" d = Some (VList pages) ->
  pages <> [] ->
  (forall page, In page pages -> is_Some (page_metadata page)) ->
  let blocks := enumerated page_block 1 pages in
  format_crawl_status (VDict d)
  = Ok (status_block d +:+ nl +:+ "## Crawled Pages: "
          +:+ str_int (Z.of_nat (length pages)) +:+ nl +:+ nl +:+ joined blocks)
  /\ length blocks = length pages
  /\ (forall (k : nat) (page : pyval),
         pages !! k = Some page ->
         blocks !! k = Some (page_block (Z.of_nat k + 1) page)).
Proof.
  intros Hdata Hne Hpages blocks. split; [|split].
  - rewrite format_crawl_status_block by (destruct d; [discriminate | congruence]).
    unfold entry_or. rewrite Hdata. cbv zeta.
    destruct pages as [|page pages]; [congruence|]. simpl truthy. simpl is_list.
    simpl andb. cbv iota. simpl len. simpl iter.
    rewrite !bind_ok.
    rewrite (format_crawled_page_loop (page :: pages) Hpages).
    now rewrite !append_assoc.
  - apply enumerated_length.
  - intros k page Hk. unfold blocks. rewrite (enumerated_lookup _ _ 1 k page Hk).
    do 2 f_equal. lia.
Qed.

Lemma crawl_status_pages_witness :
  format_crawl_status (VDict status_with_pages)
  = Ok ("# Crawl Status" +:+ nl +:+ nl
          +:+ "**Current Status:** completed" +:+ nl
          +:+ "**Total Pages:** 2" +:+ nl
          +:+ "**Credits Used:** 0" +:+ nl +:+ nl
          +:+ "## Crawled Pages: 2" +:+ nl +:+ nl
          +:+ "1. **Home**" +:+ nl +:+ "   URL: https://example.com/" +:+ nl
          +:+ "2. **Unknown Title**" +:+ nl +:+ "   URL: Unknown URL" +:+ nl).
Proof.
  destruct (crawl_status_pages status_with_pages
              [VDict [("metadata", VDict [("title", VStr "Home");
                                           ("sourceURL", VStr "https://example.com/")])];
               VDict [("markdown", VStr "text")]])
    as [Hreport _].
  - reflexivity.
  - discriminate.
  - intros page [<-|[<-|[]]]; eexists; reflexivity.
  - rewrite Hreport. reflexivity.
Defined.

(** X5: for a status snapshot that is not empty and whose [data] is
    absent, empty or not a list, the report is the status block alone:
    the status, the page and credit counts (0 when absent), the expiry
    only when there is one, and no list of pages, not even an empty
    one. *)
Theorem crawl_status_without_pages (d : list (string * pyval)) :
  d <> [] ->
  truthy (entry_or d "data" VNone) && is_list (entry_or d "data" VNone) = false ->
  format_crawl_status (VDict d) = Ok (status_block d).
Proof.
  intros Hd Hdata. rewrite (format_crawl_status_block d Hd). cbv zeta.
  now rewrite Hdata.
Qed.

Lemma crawl_status_without_pages_witness :
  format_crawl_status (VDict status_scraping)
  = Ok ("# Crawl Status" +:+ nl +:+ nl
          +:+ "**Current Status:** scraping" +:+ nl
          +:+ "**Total Pages:** 0" +:+ nl
          +:+ "**Credits Used:** 0" +:+ nl
          +:+ "**Expires At:** 2025-03-06T00:00:00Z" +:+ nl).
Proof.
  rewrite (crawl_status_without_pages status_scraping); [reflexivity| discriminate |reflexivity].
Defined.

End Reports.

(** ** Answers of the provider *)

Section Answers.

Variable svc : FirecrawlService.
Variable dumps : pyval -> result string.

(** Running the [try] block of a crawl server call on the client's
    answer. *)
Lemma scrape_url_answer (url : string) (formats : option (list string)) (st st1 : State)
    (app : FirecrawlApp) (response : pyval) :
  get_firecrawl_app st = (Ok app, st1) ->
  fc_scrape_url svc (app_api_key app) url
    (scrape_params (or_default formats default_formats)) = Ok response ->
  scrape_url svc url formats st
  = (match format_markdown_with_metadata response with
     | Ok report => Ok report
     | Raise e => Ok ("An error occurred while scraping " +:+ url +:+ ": " +:+ exn_msg e)
     end, st1).
Proof.
  intros Happ Hanswer. unfold scrape_url, fc_try_except.
  rewrite (scrape_url_body_run _ _ _ _ _ _ Happ), Hanswer, bind_ok.
  pose proof (safe_format_markdown_with_metadata response) as Hsafe.
  destruct (format_markdown_with_metadata response) as [report|e]; [reflexivity|].
  now rewrite (Hsafe e eq_refl).
Qed.

Lemma map_website_answer (url : string) (include_subdomains : option bool) (st st1 : State)
    (app : FirecrawlApp) (response : pyval) :
  get_firecrawl_app st = (Ok app, st1) ->
  fc_map_url svc (app_api_key app) url
    (map_params (or_default include_subdomains true)) = Ok response ->
  map_website svc url include_subdomains st
  = (match format_mapped_links response with
     | Ok report => Ok report
     | Raise e =>
         Ok ("An error occurred while mapping the website " +:+ url +:+ ": " +:+ exn_msg e)
     end, st1).
Proof.
  intros Happ Hanswer. unfold map_website, fc_try_except.
  rewrite (map_website_body_run _ _ _ _ _ _ Happ), Hanswer, bind_ok.
  pose proof (safe_format_mapped_links response) as Hsafe.
  destruct (format_mapped_links response) as [report|e]; [reflexivity|].
  now rewrite (Hsafe e eq_refl).
Qed.

Lemma extract_structured_data_answer (urls : list string) (prompt : string)
    (schema : pyval) (st st1 : State) (app : FirecrawlApp) (data success : pyval) :
  get_firecrawl_app st = (Ok app, st1) ->
  fc_extract svc (app_api_key app) urls (extract_params prompt schema)
  = Ok data ->
  get data "success" VNone = Ok success ->
  extract_structured_data dumps svc urls prompt schema st
  = (if truthy success
     then match dumps (entry_or (match data with VDict d => d | _ => [] end)
                                "data" (VDict [])) with
          | Ok text =>
              Ok ("# Extracted Structured Data" +:+ nl +:+ nl +:+ "```json" +:+ nl
                    +:+ text +:+ nl +:+ "```")
          | Raise e =>
              if is_exception e
              then Ok ("An error occurred while extracting structured data: " +:+ exn_msg e)
              else Raise e
          end
     else Ok ("Error: Failed to extract structured data. "
                +:+ str (entry_or (match data with VDict d => d | _ => [] end)
                           "error" (VStr ""))), st1).
Proof.
  intros Happ Hanswer Hsuccess.
  unfold extract_structured_data, fc_try_except, extract_structured_data_body, mbind,
    fc_bind, lift.
  rewrite Happ, Hanswer, Hsuccess.
  destruct data as [| | | | |d|]; try discriminate Hsuccess.
  rewrite !get_dict. destruct (truthy success); simpl; [|reflexivity].
  destruct (dumps (entry_or d "data" (VDict []))) as [text|e]; simpl.
  - now rewrite !append_assoc.
  - now destruct (is_exception e).
Qed.

End Answers.

Section Provider.

Import Gateway.

Variable w : World.

(** X6: when the provider answers a scrape, a map or an extraction
    with a response whose [success] entry is absent, false or empty, the
    report is the error line of the operation followed by the provider's
    error text (nothing when there is none); the rest of the response is
    not read and [json.dumps] is not called. *)
Theorem provider_failure_report (c : call) (p : Process) (line : string)
    (response success error : pyval) :
  failure_line c = Some line ->
  client_reached w c p ->
  client_answers w c response ->
  get response "success" VNone = Ok success ->
  truthy success = false ->
  get response "error" (VStr "") = Ok error ->
  fst (invoke w c p) = Ok (line +:+ str error).
Proof.
  intros Hline Hreached Hanswers Hsuccess Hfalse Herror.
  destruct c; try discriminate Hline; simpl in *; injection Hline as <-;
    destruct Hreached as (app & st1 & Happ).
  - rewrite (scrape_url_answer _ _ _ _ _ _ response Happ (Hanswers _ _ _)).
    unfold format_markdown_with_metadata.
    rewrite Hsuccess, bind_ok, Hfalse. simpl. now rewrite Herror.
  - rewrite (map_website_answer _ _ _ _ _ _ response Happ (Hanswers _ _ _)).
    unfold format_mapped_links.
    rewrite Hsuccess, bind_ok, Hfalse. simpl. now rewrite Herror.
  - rewrite (extract_structured_data_answer _ _ _ _ _ _ _ _ response success Happ
               (Hanswers _ _ _) Hsuccess).
    rewrite Hfalse. simpl.
    destruct response as [| | | | |d|]; try discriminate Herror.
    rewrite get_dict in Herror. now injection Herror as <-.
Qed.

End Provider.

Lemma provider_failure_report_witness :
  fst (Gateway.invoke (world_of (Ok failure) (fun _ => Raise (Exn "TypeError" "unused")))
         (Gateway.ExtractStructuredData ["https://example.com"] "fields" (VDict []))
         (Gateway.process_with_key Sample.key false))
  = Ok "Error: Failed to extract structured data. Rate limited".
Proof.
  apply (provider_failure_report
           (world_of (Ok failure) (fun _ => Raise (Exn "TypeError" "unused")))
           (Gateway.ExtractStructuredData ["https://example.com"] "fields" (VDict []))
           (Gateway.process_with_key Sample.key false)
           "Error: Failed to extract structured data. "
           failure (VBool false) (VStr "Rate limited")).
  - reflexivity.
  - simpl. do 2 eexists. reflexivity.
  - intros key urls params. reflexivity.
  - reflexivity.
  - reflexivity.
  - reflexivity.
Defined.

(** ** Reports on a successful answer *)

Section Success.

Variable svc : FirecrawlService.
Variable dumps : pyval -> result string.

(** X7: [crawl_website] reports a started job exactly when the
    response has a [jobId] that is not empty: the report then shows the
    job id as it is; a [jobId] that is present but null, empty or 0 is
    reported as a failed start, like an absent one. *)
Theorem crawl_job_report (url : string) (limit max_depth : option Z)
    (formats : option (list string)) (st st1 : State) (app : FirecrawlApp)
    (crawl_result job_id error : pyval) :
  get_firecrawl_app st = (Ok app, st1) ->
  fc_crawl_url svc (app_api_key app) url
    (crawl_params (or_default limit 10) (or_default max_depth 2)
       (or_default formats default_formats))
  = Ok crawl_result ->
  get crawl_result "jobId" VNone = Ok job_id ->
  get crawl_result "error" (VStr "") = Ok error ->
  crawl_website svc url limit max_depth formats st
  = (Ok (if truthy job_id
         then "# Crawl Job Started" +:+ nl +:+ nl +:+ "**Job ID:** " +:+ str job_id +:+ nl
                +:+ nl +:+ "To check the status of this crawl, use the `check_crawl_status` tool with this Job ID."
         else "Error: Failed to start crawl job. " +:+ str error), st1).
Proof.
  intros Happ Hcrawl Hjob Herror. unfold crawl_website, fc_try_except.
  rewrite (crawl_website_body_run _ _ _ _ _ _ _ _ _ Happ Hcrawl), Hjob, bind_ok.
  destruct (truthy job_id); simpl; [reflexivity|]. now rewrite Herror.
Qed.

(** X8: for a successful scrape whose markdown is text, the report is
    the heading built from the metadata ("Scraped Content" and "Unknown"
    for a missing title and source, the description line only when
    there is a description) and then the markdown body, unchanged; a
    missing [data], [markdown] or [metadata] entry counts as empty. *)
Theorem scrape_report (response success data : pyval) (body : string)
    (md : list (string * pyval)) :
  get response "success" VNone = Ok success ->
  truthy success = true ->
  get response "data" (VDict []) = Ok data ->
  get data "markdown" (VStr "") = Ok (VStr body) ->
  get data "metadata" (VDict []) = Ok (VDict md) ->
  format_markdown_with_metadata response = Ok (scrape_heading md +:+ body).
Proof.
  intros Hsuccess Htrue Hdata Hbody Hmd. unfold format_markdown_with_metadata.
  rewrite Hsuccess, bind_ok, Htrue. simpl negb. cbv iota.
  rewrite Hdata, bind_ok, Hbody, bind_ok, Hmd, bind_ok, !get_dict, !bind_ok.
  unfold concat_str, scrape_heading.
  destruct (truthy (entry_or md "description" VNone)); now rewrite ?append_assoc.
Qed.

(** X9: a successful scrape whose markdown entry is not text (null, a
    number, a list) is not reported as content: the formatter raises,
    and [scrape_url] reports the error sentence with the message of the
    [TypeError]. *)
Theorem scrape_without_text (url : string) (formats : option (list string))
    (st st1 : State) (app : FirecrawlApp) (response success data body : pyval)
    (md : list (string * pyval)) :
  get_firecrawl_app st = (Ok app, st1) ->
  fc_scrape_url svc (app_api_key app) url
    (scrape_params (or_default formats default_formats)) = Ok response ->
  get response "success" VNone = Ok success ->
  truthy success = true ->
  get response "data" (VDict []) = Ok data ->
  get data "markdown" (VStr "") = Ok body ->
  (forall text, body <> VStr text) ->
  get data "metadata" (VDict []) = Ok (VDict md) ->
  scrape_url svc url formats st
  = (Ok ("An error occurred while scraping " +:+ url
           +:+ ": can only concatenate str (not " +:+ String dquote (type_name body)
           +:+ String dquote ") to str"), st1).
Proof.
  intros Happ Hanswer Hsuccess Htrue Hdata Hbody Hnot Hmd.
  rewrite (scrape_url_answer svc url formats st st1 app response Happ Hanswer).
  unfold format_markdown_with_metadata.
  rewrite Hsuccess, bind_ok, Htrue. simpl negb. cbv iota.
  rewrite Hdata, bind_ok, Hbody, bind_ok, Hmd, bind_ok, !get_dict, !bind_ok.
  destruct body; try reflexivity. now destruct (Hnot s).
Qed.

(** X10: for a successful extraction, the report is the heading and
    what [json.dumps] gives for the [data] entry (an empty dictionary
    when absent) between the marks of a json block; when [json.dumps]
    raises an instance of [Exception], the report is the error sentence
    with its message, and what it raises otherwise leaves the tool. *)
Theorem extraction_report (urls : list string) (prompt : string) (schema : pyval)
    (st st1 : State) (app : FirecrawlApp) (response success payload : pyval) :
  get_firecrawl_app st = (Ok app, st1) ->
  fc_extract svc (app_api_key app) urls (extract_params prompt schema) = Ok response ->
  get response "success" VNone = Ok success ->
  truthy success = true ->
  get response "data" (VDict []) = Ok payload ->
  extract_structured_data dumps svc urls prompt schema st
  = (match dumps payload with
     | Ok text =>
         Ok ("# Extracted Structured Data" +:+ nl +:+ nl +:+ "```json" +:+ nl
               +:+ text +:+ nl +:+ "```")
     | Raise e =>
         if is_exception e
         then Ok ("An error occurred while extracting structured data: " +:+ exn_msg e)
         else Raise e
     end, st1).
Proof.
  intros Happ Hanswer Hsuccess Htrue Hpayload.
  rewrite (extract_structured_data_answer svc dumps urls prompt schema st st1 app response
             success Happ Hanswer Hsuccess).
  rewrite Htrue. simpl.
  destruct response as [| | | | |d|]; try discriminate Hpayload.
  rewrite get_dict in Hpayload. now injection Hpayload as <-.
Qed.

End Success.

Lemma crawl_job_report_witness :
  crawl_website (Gateway.firecrawl_service
                   (world_of (Ok (VDict [("success", VBool true); ("jobId", VStr "job-7")]))
                      (fun _ => Ok "{}")))
    "https://example.com" None None None Sample.state
  = (Ok ("# Crawl Job Started" +:+ nl +:+ nl +:+ "**Job ID:** job-7" +:+ nl +:+ nl
           +:+ "To check the status of this crawl, use the `check_crawl_status` tool with this Job ID."),
     Sample.started).
Proof.
  apply (crawl_job_report _ "https://example.com" None None None Sample.state
           Sample.started (mkApp Sample.key)
           (VDict [("success", VBool true); ("jobId", VStr "job-7")])
           (VStr "job-7") (VStr "")); reflexivity.
Defined.

Lemma scrape_report_witness :
  format_markdown_with_metadata scrape_ok
  = Ok ("# Example" +:+ nl +:+ nl +:+ "**Source URL:** Unknown" +:+ nl +:+ nl
          +:+ "---" +:+ nl +:+ nl +:+ "Hello").
Proof.
  apply (scrape_report scrape_ok (VBool true)
           (VDict [("markdown", VStr "Hello"); ("metadata", VDict [("title", VStr "Example")])])
           "Hello" [("title", VStr "Example")]); reflexivity.
Defined.

Lemma scrape_without_text_witness :
  scrape_url (Gateway.firecrawl_service (world_of (Ok scrape_null_body) (fun _ => Ok "{}")))
    "https://example.com" None Sample.state
  = (Ok ("An error occurred while scraping https://example.com"
           +:+ ": can only concatenate str (not " +:+ String dquote "NoneType"
           +:+ String dquote ") to str"), Sample.started).
Proof.
  apply (scrape_without_text _ "https://example.com" None Sample.state
           Sample.started (mkApp Sample.key) scrape_null_body (VBool true)
           (VDict [("markdown", VNone)]) VNone []); try reflexivity.
  intros text. discriminate.
Defined.

Lemma extraction_report_witness :
  extract_structured_data (fun _ => Ok extract_json)
    (Gateway.firecrawl_service (world_of (Ok extract_ok) (fun _ => Ok extract_json)))
    ["https://example.com"] "fields" (VDict []) Sample.state
  = (Ok ("# Extracted Structured Data" +:+ nl +:+ nl +:+ "```json" +:+ nl
           +:+ extract_json +:+ nl +:+ "```"), Sample.started).
Proof.
  apply (extraction_report _ (fun _ => Ok extract_json) ["https://example.com"] "fields"
           (VDict []) Sample.state Sample.started (mkApp Sample.key) extract_ok (VBool true)
           (VDict [("name", VStr "Example")])); reflexivity.
Defined.

(** ** Requests and reports of the search server *)

Section Requests.

(** X11: a result count of 0 is replaced by the configured default, 5,
    in the request that each search tool hands to the client; every
    other count, negative ones too, is sent as given. *)
Theorem result_count_or_default (n : Z) (exa : Exa) (query : string) :
  (exists request,
      search_sends (fun svc => search_web svc exa query (Some n)) exa query request
      /\ request !! "num_results" = Some (VInt (if n =? 0 then 5 else n)))
  /\ (forall now include_domains include_text max_age_days,
         max_age_resolves now max_age_days ->
         exists request,
           search_sends
             (fun svc =>
                advanced_search_web svc exa now query (Some n) include_domains include_text
                  max_age_days)
             exa query request
           /\ request !! "num_results" = Some (VInt (if n =? 0 then 5 else n))).
Proof.
  assert (py_or (of_opt_int (Some n)) (VInt (default_num_results websearch_config))
          = VInt (if n =? 0 then 5 else n)) as Hor.
  { unfold py_or, of_opt_int, truthy. now destruct (n =? 0). }
  split.
  - eexists. split; [apply search_web_sends|].
    rewrite lookup_insert_ne by done. unfold search_web_args. rewrite Hor.
    apply lookup_singleton_eq.
  - intros now include_domains include_text max_age_days Hage.
    destruct (advanced_search_args_built now (Some n) include_domains include_text
                max_age_days Hage) as [args Hargs].
    eexists. split; [apply (advanced_search_web_sends _ _ _ _ _ _ _ _ Hargs)|].
    rewrite lookup_insert_ne by done.
    rewrite (advanced_search_args_num_results _ _ _ _ _ _ Hargs). now rewrite Hor.
Qed.

Lemma result_count_or_default_witness :
  (exists request,
      search_sends
        (fun svc => search_web svc (mkExa Sample.key) "latest AI developments" (Some 0))
        (mkExa Sample.key) "latest AI developments" request
      /\ request !! "num_results" = Some (VInt 5))
  /\ (exists request,
         search_sends
           (fun svc =>
              advanced_search_web svc (mkExa Sample.key) Sample.now "gemma 3" (Some 0) None
                (Some "open source") (Some 30))
           (mkExa Sample.key) "gemma 3" request
         /\ request !! "num_results" = Some (VInt 5)).
Proof.
  split.
  - destruct (result_count_or_default 0 (mkExa Sample.key) "latest AI developments")
      as [Hweb _].
    exact Hweb.
  - destruct (result_count_or_default 0 (mkExa Sample.key) "gemma 3") as [_ Hadv].
    apply (Hadv Sample.now None (Some "open source") (Some 30)).
    right. eexists. reflexivity.
Defined.

(** The filters in the keyword arguments. *)
Lemma advanced_search_args_filters (now : Datetime.datetime) (num_results : option Z)
    (include_domains : option (list string)) (include_text : option string)
    (max_age_days : option Z) (args : gmap string pyval) :
  advanced_search_args now num_results include_domains include_text max_age_days = Ok args ->
  args !! "include_domains"
  = match include_domains with
    | Some (domain :: domains) => Some (VList (List.map VStr (domain :: domains)))
    | _ => None
    end
  /\ args !! "include_text"
     = match include_text with
       | Some text => if String.eqb text "" then None else Some (VList [VStr text])
       | None => None
       end.
Proof.
  unfold advanced_search_args.
  destruct include_domains as [[|domain domains]|];
    destruct include_text as [text|]; simpl;
    try destruct (String.eqb text ""); simpl;
    destruct max_age_days as [days|];
    try destruct (negb (days =? 0));
    try destruct (Datetime.sub_days now days);
    intros [= <-]; split;
    rewrite ?lookup_insert_ne by done;
    rewrite ?lookup_insert_eq; try reflexivity;
    rewrite ?lookup_insert_ne by done; reflexivity.
Qed.

(** X12: the request that [advanced_search_web] hands to the client has
    an [include_domains] entry exactly when the caller gives a list of
    domains that is not empty, and it is that list; it has an
    [include_text] entry exactly when the caller gives a text that is
    not empty, and it is the list of that one text. *)
Theorem filter_translation (exa : Exa) (query : string) (now : Datetime.datetime)
    (num_results : option Z) (include_domains : option (list string))
    (include_text : option string) (max_age_days : option Z) :
  max_age_resolves now max_age_days ->
  exists request,
    search_sends
      (fun svc =>
         advanced_search_web svc exa now query num_results include_domains include_text
           max_age_days)
      exa query request
    /\ request !! "include_domains"
       = match include_domains with
         | Some (domain :: domains) => Some (VList (List.map VStr (domain :: domains)))
         | _ => None
         end
    /\ request !! "include_text"
       = match include_text with
         | Some text => if String.eqb text "" then None else Some (VList [VStr text])
         | None => None
         end.
Proof.
  intros Hage.
  destruct (advanced_search_args_built now num_results include_domains include_text
              max_age_days Hage) as [args Hargs].
  destruct (advanced_search_args_filters _ _ _ _ _ _ Hargs) as [Hdomains Htext].
  exists (<["summary" := summary_option]> args).
  split; [apply (advanced_search_web_sends _ _ _ _ _ _ _ _ Hargs)|].
  split; now rewrite lookup_insert_ne by done.
Qed.

Lemma filter_translation_witness :
  exists request,
    search_sends
      (fun svc =>
         advanced_search_web svc (mkExa Sample.key) Sample.now "gemma 3" None
           (Some ["example.com"]) (Some "open source") (Some 30))
      (mkExa Sample.key) "gemma 3" request
    /\ request !! "include_domains" = Some (VList [VStr "example.com"])
    /\ request !! "include_text" = Some (VList [VStr "open source"]).
Proof.
  apply (filter_translation (mkExa Sample.key) "gemma 3" Sample.now None
           (Some ["example.com"]) (Some "open source") (Some 30)).
  right. eexists. reflexivity.
Defined.

(** X13: [advanced_search_web] called without filters, or with empty
    ones (no domains, an empty text, a max age of 0), does what
    [search_web] does: the same request, hence the same report. *)
Theorem advanced_search_without_filters (svc : ExaService) (exa : Exa)
    (now : Datetime.datetime) (query : string) (num_results : option Z)
    (include_domains : option (list string)) (include_text : option string)
    (max_age_days : option Z) :
  include_domains = None \/ include_domains = Some [] ->
  include_text = None \/ include_text = Some "" ->
  max_age_days = None \/ max_age_days = Some 0 ->
  advanced_search_web svc exa now query num_results include_domains include_text
    max_age_days
  = search_web svc exa query num_results.
Proof.
  intros [-> | ->] [-> | ->] [-> | ->]; reflexivity.
Qed.

Lemma advanced_search_without_filters_witness :
  advanced_search_web (Gateway.exa_service Sample.world) (mkExa Sample.key) Sample.now
    "latest AI developments" None (Some []) (Some "") (Some 0)
  = search_web (Gateway.exa_service Sample.world) (mkExa Sample.key)
      "latest AI developments" None.
Proof.
  apply advanced_search_without_filters; now right.
Defined.

(** X14: when the date [max_age_days] days before the clock reading is
    not a date of the years 1 to 9999, [advanced_search_web] makes no
    search: whatever the client would answer, the report is the error
    sentence with the message of the [OverflowError]. *)
Theorem max_age_out_of_range (svc : ExaService) (exa : Exa) (now : Datetime.datetime)
    (query : string) (num_results : option Z) (include_domains : option (list string))
    (include_text : option string) (days : Z) :
  days <> 0 ->
  - Datetime.max_delta_days <= days <= Datetime.max_delta_days ->
  Datetime.toordinal now - days < 1 \/ Datetime.max_ordinal < Datetime.toordinal now - days ->
  advanced_search_web svc exa now query num_results include_domains include_text (Some days)
  = Ok "An error occurred while searching with Exa: date value out of range".
Proof.
  intros Hdays Hmagnitude Hrange.
  assert (Datetime.sub_days now days = Raise (Exn "OverflowError" "date value out of range"))
    as Hsub.
  { unfold Datetime.sub_days. unfold Datetime.max_delta_days, Datetime.max_c_int in *.
    case_if Hint.
    { apply orb_prop in Hint as [Hint|Hint]; apply Z.ltb_lt in Hint; lia. }
    case_if Hbig.
    { apply orb_prop in Hbig as [Hbig|Hbig]; apply Z.ltb_lt in Hbig; lia. }
    case_if Hin; [|reflexivity].
    apply andb_prop in Hin as [Hlo Hhi]. apply Z.leb_le in Hlo, Hhi. lia. }
  unfold advanced_search_web, advanced_search_web_body, advanced_search_args.
  assert (truthy (VInt days) = true) as ->.
  { unfold truthy. destruct (days =? 0) eqn:E; [apply Z.eqb_eq in E; lia | reflexivity]. }
  rewrite Hsub. reflexivity.
Qed.

Lemma max_age_out_of_range_witness :
  advanced_search_web (Gateway.exa_service Sample.world) (mkExa Sample.key) Sample.now
    "gemma 3" None None None (Some 800000)
  = Ok "An error occurred while searching with Exa: date value out of range".
Proof.
  apply max_age_out_of_range.
  - discriminate.
  - vm_compute. split; discriminate.
  - left. vm_compute. reflexivity.
Defined.

(** Reading an attribute that is not there. *)
Lemma attr_missing (r : pyval) (name : string) :
  attr r name = None -> getattr r name = Raise (AttributeError r name).
Proof.
  destruct r; simpl; try reflexivity. now intros ->.
Qed.

(** One turn of the loop on an entry without [url] raises. *)
Lemma format_search_result_raise (acc : string) (idx : Z) (r : pyval) :
  attr r "url" = None ->
  format_search_result acc idx r = Raise (AttributeError r "url").
Proof.
  intros Hurl. unfold format_search_result.
  rewrite (attr_missing _ _ Hurl).
  destruct (attr r "title") as [t|] eqn:Ht.
  - destruct (attr_some _ _ _ Ht) as [-> ->]. reflexivity.
  - rewrite (attr_none _ _ Ht). reflexivity.
Qed.

Lemma format_search_result_loop_raise (pre : list pyval) (r : pyval) (post : list pyval) :
  (forall x, In x pre -> is_Some (attr x "url")) ->
  attr r "url" = None ->
  forall (idx : Z) (acc : string),
    for_enumerate format_search_result (pre ++ r :: post) idx acc
    = Raise (AttributeError r "url").
Proof.
  intros Hpre Hurl. induction pre as [|x pre IH]; intros idx acc.
  - simpl. now rewrite (format_search_result_raise _ _ _ Hurl).
  - destruct (Hpre x (or_introl eq_refl)) as [u Hu].
    simpl. rewrite (format_search_result_block _ _ _ _ Hu), bind_ok.
    apply IH. intros y Hy. apply Hpre. now right.
Qed.

(** X15: when an entry of a search response has no [url], the whole
    report is lost, whatever the other entries hold: the formatter
    raises the [AttributeError] of the first such entry, and
    [search_web] reports the error sentence with its message. *)
Theorem entry_without_url (search_results : pyval) (pre : list pyval) (r : pyval)
    (post : list pyval) :
  getattr search_results "results" = Ok (VList (pre ++ r :: post)) ->
  (forall x, In x pre -> is_Some (attr x "url")) ->
  attr r "url" = None ->
  format_search_results search_results = Raise (AttributeError r "url")
  /\ (forall (svc : ExaService) (exa : Exa) (query : string) (num_results : option Z),
         exa_search_and_contents svc (exa_api_key exa) query
           (<["summary" := summary_option]> (search_web_args num_results))
         = Ok search_results ->
         search_web svc exa query num_results
         = Ok ("An error occurred while searching with Exa: "
                 +:+ exn_msg (AttributeError r "url"))).
Proof.
  intros Hres Hpre Hurl.
  assert (format_search_results search_results = Raise (AttributeError r "url")) as Hraise.
  { unfold format_search_results. rewrite Hres, bind_ok.
    assert (truthy (VList (pre ++ r :: post)) = true) as -> by now destruct pre.
    simpl negb. cbv iota. simpl iter. rewrite bind_ok.
    now apply format_search_result_loop_raise. }
  split; [exact Hraise|].
  intros svc exa query num_results Hanswer.
  unfold search_web, search_web_body, search_and_contents, try_except.
  now rewrite Hanswer, bind_ok, Hraise.
Qed.

End Requests.

Lemma entry_without_url_witness :
  format_search_results
    (VObj "SearchResponse" "SearchResponse(...)"
       [("results", VList [result_with_url; result_without_url])])
  = Raise (Exn "AttributeError"
             (String squote "Result" +:+ String squote " object has no attribute "
                +:+ String squote "url" +:+ String squote "")).
Proof.
  destruct (entry_without_url
              (VObj "SearchResponse" "SearchResponse(...)"
                 [("results", VList [result_with_url; result_without_url])])
              [result_with_url] result_without_url [])
    as [Hraise _].
  - reflexivity.
  - intros x [<-|[]]. eexists. reflexivity.
  - reflexivity.
  - exact Hraise.
Defined.
